(** * RITCH: the ITCH message decoders and the session orchestrator

    A shallow embedding of [src/MessageTypes.cpp] (field codec and the three
    decoders [Orders], [Trades], [Modifications]) and of
    [src/getMessages.cpp] (the orchestrator [getMessagesTemplate]), with the
    properties of the feed decoder proved over it.

    Conventions of the embedding:
    - an [unsigned char* buf] is a [buffer], the map from an offset to the
      byte stored there; [&buf[k]] is [offset buf k].  The C++ code performs
      no bounds check, and neither does the model;
    - [unsigned int] and [unsigned long long] values are [Z], with the
      wrap-around of the width written out ([wrap32], [wrap64]);
    - a [std::vector] column is a [list]; [push_back] appends at the end;
    - a [double] is a primitive binary64 [float];
    - a call that can throw returns an [option], and [None] is the
      exception: [reserve] throws when the allocator does not grant the
      request, and which requests it grants is a parameter. *)

From Stdlib Require Import ZArith List Lia Bool.
From Stdlib Require Import Strings.Byte Strings.Ascii Strings.String.
From Stdlib Require Import Floats.PrimFloat Numbers.Cyclic.Int63.Uint63.
Import ListNotations.

Local Open Scope Z_scope.

(** ** Buffers and machine integers *)

Definition buffer := nat -> byte.

(** [&buf[k]] *)
Definition offset (buf : buffer) (k : nat) : buffer := fun i => buf (k + i)%nat.

(** A buffer holding the bytes of [l] (and zero bytes behind them). *)
Definition buffer_of_list (l : list byte) : buffer := fun i => nth i l x00.

(** The value of an [unsigned char]. *)
Definition uchar (b : byte) : Z := Z.of_N (Byte.to_N b).

Definition wrap16 (x : Z) : Z := x mod 2 ^ 16.
Definition wrap32 (x : Z) : Z := x mod 2 ^ 32.
Definition wrap64 (x : Z) : Z := x mod 2 ^ 64.

(** [*reinterpret_cast<uintN_t*>(&buf[0])] for N = 8 * n, on the
    little-endian hosts the package is built for: the byte at the lowest
    address is the least significant one. *)
Fixpoint load_uint (n : nat) (buf : buffer) : Z :=
  match n with
  | O => 0
  | S k => Z.lor (uchar (buf 0%nat)) (Z.shiftl (load_uint k (offset buf 1)) 8)
  end.

(** [__builtin_bswapN] for N = 8 * n: the n low bytes of [x] in reverse
    order. *)
Fixpoint bswap (n : nat) (x : Z) : Z :=
  match n with
  | O => 0
  | S k => Z.lor (Z.shiftl (Z.land x 255) (8 * Z.of_nat k))
                 (bswap k (Z.shiftr x 8))
  end.

Definition bswap16 : Z -> Z := bswap 2.
Definition bswap32 : Z -> Z := bswap 4.
Definition bswap64 : Z -> Z := bswap 8.

(** ** Field codec *)

Definition get2bytes (buf : buffer) : Z :=
  wrap32 (bswap16 (load_uint 2 buf)).

Definition get4bytes (buf : buffer) : Z :=
  wrap32 (bswap32 (load_uint 4 buf)).

Definition get6bytes (buf : buffer) : Z :=
  wrap64 (Z.shiftr (Z.land (bswap64 (load_uint 8 buf)) 0xFFFFFFFFFFFF0000) 16).

Definition get8bytes (buf : buffer) : Z :=
  wrap64 (bswap64 (load_uint 8 buf)).

(** The big-endian reading of [n] bytes, in the words of the specification:
    the sum of [buf[i] * 256^(n-1-i)] over [i = 0 .. n-1]. *)
Definition big_endian (n : nat) (buf : buffer) : Z :=
  fold_right Z.add 0
    (map (fun i => uchar (buf i) * 256 ^ (Z.of_nat n - 1 - Z.of_nat i))
         (seq 0 n)).

(** ** Helpers shared by the three decoders *)

Definition white : byte := " "%byte.

(** The type test at the head of every [loadMessages]:
    [bool r = false; for (unsigned char type : validTypes) r = r || buf[0] == type;] *)
Definition matchesValidType (validTypes : list byte) (buf : buffer) : bool :=
  fold_left (fun acc t => acc || Byte.eqb (buf 0%nat) t) validTypes false.

(** The loop that copies a fixed-width text field:
    [for (i = 0; i < n; ++i) if (buf[off + i] != white) s += buf[off + i];] *)
Definition copyNonWhite (buf : buffer) (off n : nat) (s : string) : string :=
  fold_left
    (fun acc i =>
       if Byte.eqb (buf (off + i)%nat) white then acc
       else (acc ++ String (ascii_of_byte (buf (off + i)%nat)) EmptyString)%string)
    (seq 0 n) s.

(** [(double) raw / 10000.0], for a [raw] that is an [unsigned int]. *)
Definition priceOfRaw (raw : Z) : float :=
  PrimFloat.div (PrimFloat.of_uint63 (Uint63.of_Z raw)) 10000%float.

(** [++messageCount] on an [unsigned long long]. *)
Definition incr64 (n : Z) : Z := wrap64 (n + 1).

(** Modelled from the spec: the default window end of a fresh decoder is
    the initialiser of [endMsgCount] in MessageTypes.h, which is not among
    the sources; the specification gives the default window as [0, +inf),
    the largest [unsigned long long] here. *)
Definition defaultEndMsgCount : Z := 2 ^ 64 - 1.

(** [MessageType::countValidMessages], over the [typePositions] of the
    variant (declared in MessageTypes.h, a parameter here). *)
Definition countValidMessages (typePositions : list nat) (count : list Z) : Z :=
  fold_left (fun total typePos => wrap64 (total + nth typePos count 0))
            typePositions 0.

(** ** Orders *)

Module Orders.

(** The members of the class.  The element types of the columns are
    declared in MessageTypes.h; a column holds the values pushed to it. *)
Record state := mk {
  messageCount : Z;
  startMsgCount : Z;
  endMsgCount : Z;
  type : list byte;
  locateCode : list Z;
  trackingNumber : list Z;
  timestamp : list Z;
  orderRef : list Z;
  buy : list bool;
  shares : list Z;
  stock : list string;
  price : list float;
  mpid : list string
}.

(** Modelled from the spec: [validTypes] is initialised in MessageTypes.h,
    which is not among the sources; the variant accepts ['A'] and ['F']. *)
Definition validTypes : list byte := ["A"%byte; "F"%byte].

(** The freshly constructed decoder. *)
Definition init : state :=
  mk 0 0 defaultEndMsgCount [] [] [] [] [] [] [] [] [] [].

Definition setBoundaries (st : state) (startMsgCount endMsgCount : Z) : state :=
  mk (messageCount st) startMsgCount endMsgCount
     (type st) (locateCode st) (trackingNumber st) (timestamp st)
     (orderRef st) (buy st) (shares st) (stock st) (price st) (mpid st).

Definition setMessageCount (st : state) (n : Z) : state :=
  mk n (startMsgCount st) (endMsgCount st)
     (type st) (locateCode st) (trackingNumber st) (timestamp st)
     (orderRef st) (buy st) (shares st) (stock st) (price st) (mpid st).

(** [reserve] asks each of the ten vectors for room for [size] elements.
    [std::vector::reserve] changes the capacity, never the contents, and it
    throws ([std::length_error], [std::bad_alloc]) when the request is not
    granted.  Which requests the allocator grants depends on the machine:
    [allocates size] says whether all ten are.  [None] is the exception. *)
Definition reserve (allocates : Z -> bool) (st : state) (size : Z)
    : option state :=
  if allocates size then Some st else None.

Definition loadMessages (st : state) (buf : buffer) : bool * state :=
  let rightMessage := matchesValidType validTypes buf in
  if negb rightMessage then (true, st)
  else if messageCount st <? startMsgCount st then
    (true, setMessageCount st (incr64 (messageCount st)))
  else if endMsgCount st <? messageCount st then (false, st)
  else
    let stock_string := copyNonWhite buf 24 8 EmptyString in
    let mpid_string :=
      if Byte.eqb (buf 0%nat) "F"%byte
      then copyNonWhite buf 36 4 EmptyString
      else EmptyString in
    (true,
     mk (incr64 (messageCount st)) (startMsgCount st) (endMsgCount st)
        (type st ++ [buf 0%nat])
        (locateCode st ++ [get2bytes (offset buf 1)])
        (trackingNumber st ++ [get2bytes (offset buf 3)])
        (timestamp st ++ [get6bytes (offset buf 5)])
        (orderRef st ++ [get8bytes (offset buf 11)])
        (buy st ++ [Byte.eqb (buf 19%nat) "B"%byte])
        (shares st ++ [get4bytes (offset buf 20)])
        (stock st ++ [stock_string])
        (price st ++ [priceOfRaw (get4bytes (offset buf 32))])
        (mpid st ++ [mpid_string])).

(** The lengths of the ten columns, in the order of [getDF]. *)
Definition columnLengths (st : state) : list nat :=
  [ List.length (type st); List.length (locateCode st);
    List.length (trackingNumber st); List.length (timestamp st);
    List.length (orderRef st); List.length (buy st);
    List.length (shares st); List.length (stock st);
    List.length (price st); List.length (mpid st) ].

(** The ten columns themselves. *)
Definition columns (st : state) :=
  (type st, locateCode st, trackingNumber st, timestamp st, orderRef st,
   buy st, shares st, stock st, price st, mpid st).

End Orders.

(** ** Trades *)

Module Trades.

Record state := mk {
  messageCount : Z;
  startMsgCount : Z;
  endMsgCount : Z;
  type : list byte;
  locateCode : list Z;
  trackingNumber : list Z;
  timestamp : list Z;
  orderRef : list Z;
  buy : list bool;
  shares : list Z;
  stock : list string;
  price : list float;
  matchNumber : list Z;
  crossType : list byte
}.

(** Modelled from the spec: [validTypes] is initialised in MessageTypes.h,
    which is not among the sources; the variant accepts ['P'], ['Q'] and
    ['B']. *)
Definition validTypes : list byte := ["P"%byte; "Q"%byte; "B"%byte].

Definition init : state :=
  mk 0 0 defaultEndMsgCount [] [] [] [] [] [] [] [] [] [] [].

Definition setBoundaries (st : state) (startMsgCount endMsgCount : Z) : state :=
  mk (messageCount st) startMsgCount endMsgCount
     (type st) (locateCode st) (trackingNumber st) (timestamp st)
     (orderRef st) (buy st) (shares st) (stock st) (price st)
     (matchNumber st) (crossType st).

Definition setMessageCount (st : state) (n : Z) : state :=
  mk n (startMsgCount st) (endMsgCount st)
     (type st) (locateCode st) (trackingNumber st) (timestamp st)
     (orderRef st) (buy st) (shares st) (stock st) (price st)
     (matchNumber st) (crossType st).

(** As for Orders: the contents stay, and [None] is the exception of a
    request the allocator does not grant. *)
Definition reserve (allocates : Z -> bool) (st : state) (size : Z)
    : option state :=
  if allocates size then Some st else None.

(** The four pushes in front of the [switch]. *)
Definition pushCommon (st : state) (buf : buffer) : state :=
  mk (messageCount st) (startMsgCount st) (endMsgCount st)
     (type st ++ [buf 0%nat])
     (locateCode st ++ [get2bytes (offset buf 1)])
     (trackingNumber st ++ [get2bytes (offset buf 3)])
     (timestamp st ++ [get6bytes (offset buf 5)])
     (orderRef st) (buy st) (shares st) (stock st) (price st)
     (matchNumber st) (crossType st).

(** The seven pushes of one [case] of the [switch]. *)
Definition pushVariant (st : state) (o : Z) (b : bool) (s : Z) (k : string)
    (p : float) (m : Z) (c : byte) : state :=
  mk (messageCount st) (startMsgCount st) (endMsgCount st)
     (type st) (locateCode st) (trackingNumber st) (timestamp st)
     (orderRef st ++ [o]) (buy st ++ [b]) (shares st ++ [s])
     (stock st ++ [k]) (price st ++ [p])
     (matchNumber st ++ [m]) (crossType st ++ [c]).

(** The [default] case only writes a diagnostic to the console, which is
    not part of the decoder state. *)
Definition loadMessages (st : state) (buf : buffer) : bool * state :=
  let wrongMessage := matchesValidType validTypes buf in
  if negb wrongMessage then (true, st)
  else if messageCount st <? startMsgCount st then
    (true, setMessageCount st (incr64 (messageCount st)))
  else if endMsgCount st <? messageCount st then (false, st)
  else
    let st1 := pushCommon st buf in
    let st2 :=
      if Byte.eqb (buf 0%nat) "P"%byte then
        pushVariant st1
          (get8bytes (offset buf 11))
          (Byte.eqb (buf 19%nat) "B"%byte)
          (get4bytes (offset buf 20))
          (copyNonWhite buf 24 8 EmptyString)
          (priceOfRaw (get4bytes (offset buf 32)))
          (get8bytes (offset buf 36))
          " "%byte
      else if Byte.eqb (buf 0%nat) "Q"%byte then
        pushVariant st1
          0
          false
          (get4bytes (offset buf 11))
          (copyNonWhite buf 19 8 EmptyString)
          (priceOfRaw (get4bytes (offset buf 27)))
          (get8bytes (offset buf 31))
          (buf 39%nat)
      else if Byte.eqb (buf 0%nat) "B"%byte then
        pushVariant st1
          0 false 0 EmptyString 0%float
          (get8bytes (offset buf 11))
          " "%byte
      else st1 in
    (true, setMessageCount st2 (incr64 (messageCount st2))).

Definition columnLengths (st : state) : list nat :=
  [ List.length (type st); List.length (locateCode st); List.length (trackingNumber st);
    List.length (timestamp st); List.length (orderRef st); List.length (buy st);
    List.length (shares st); List.length (stock st); List.length (price st);
    List.length (matchNumber st); List.length (crossType st) ].

Definition columns (st : state) :=
  (type st, locateCode st, trackingNumber st, timestamp st, orderRef st,
   buy st, shares st, stock st, price st, matchNumber st, crossType st).

End Trades.

(** ** Modifications *)

Module Modifications.

Section Printable.

(** The [printable] column receives a character literal, a byte of the
    frame and the literal [false], so the conversions to its element type
    matter.  That type is declared in MessageTypes.h, which is not among the
    sources: it is a parameter, with the two implicit conversions. *)
Context {flag : Type}.
Variable flagOfChar : byte -> flag.
Variable flagOfBool : bool -> flag.

Record state := mk {
  messageCount : Z;
  startMsgCount : Z;
  endMsgCount : Z;
  type : list byte;
  locateCode : list Z;
  trackingNumber : list Z;
  timestamp : list Z;
  orderRef : list Z;
  shares : list Z;
  matchNumber : list Z;
  printable : list flag;
  price : list float;
  newOrderRef : list Z
}.

(** Modelled from the spec: [validTypes] is initialised in MessageTypes.h,
    which is not among the sources; the variant accepts ['E'], ['C'], ['X'],
    ['D'] and ['U']. *)
Definition validTypes : list byte :=
  ["E"%byte; "C"%byte; "X"%byte; "D"%byte; "U"%byte].

Definition init : state :=
  mk 0 0 defaultEndMsgCount [] [] [] [] [] [] [] [] [] [].

Definition setBoundaries (st : state) (startMsgCount endMsgCount : Z) : state :=
  mk (messageCount st) startMsgCount endMsgCount
     (type st) (locateCode st) (trackingNumber st) (timestamp st)
     (orderRef st) (shares st) (matchNumber st) (printable st) (price st)
     (newOrderRef st).

Definition setMessageCount (st : state) (n : Z) : state :=
  mk n (startMsgCount st) (endMsgCount st)
     (type st) (locateCode st) (trackingNumber st) (timestamp st)
     (orderRef st) (shares st) (matchNumber st) (printable st) (price st)
     (newOrderRef st).

(** As for Orders: the contents stay, and [None] is the exception of a
    request the allocator does not grant. *)
Definition reserve (allocates : Z -> bool) (st : state) (size : Z)
    : option state :=
  if allocates size then Some st else None.

(** The five pushes in front of the [switch]. *)
Definition pushCommon (st : state) (buf : buffer) : state :=
  mk (messageCount st) (startMsgCount st) (endMsgCount st)
     (type st ++ [buf 0%nat])
     (locateCode st ++ [get2bytes (offset buf 1)])
     (trackingNumber st ++ [get2bytes (offset buf 3)])
     (timestamp st ++ [get6bytes (offset buf 5)])
     (orderRef st ++ [get8bytes (offset buf 11)])
     (shares st) (matchNumber st) (printable st) (price st)
     (newOrderRef st).

(** The five pushes of one [case] of the [switch]. *)
Definition pushVariant (st : state) (s m : Z) (pr : flag) (p : float)
    (n : Z) : state :=
  mk (messageCount st) (startMsgCount st) (endMsgCount st)
     (type st) (locateCode st) (trackingNumber st) (timestamp st)
     (orderRef st)
     (shares st ++ [s]) (matchNumber st ++ [m]) (printable st ++ [pr])
     (price st ++ [p]) (newOrderRef st ++ [n]).

Definition loadMessages (st : state) (buf : buffer) : bool * state :=
  let wrongMessage := matchesValidType validTypes buf in
  if negb wrongMessage then (true, st)
  else if messageCount st <? startMsgCount st then
    (true, setMessageCount st (incr64 (messageCount st)))
  else if endMsgCount st <? messageCount st then (false, st)
  else
    let st1 := pushCommon st buf in
    let st2 :=
      if Byte.eqb (buf 0%nat) "E"%byte then
        pushVariant st1
          (get4bytes (offset buf 19))
          (get8bytes (offset buf 23))
          (flagOfChar "N"%byte)
          0%float
          0
      else if Byte.eqb (buf 0%nat) "C"%byte then
        pushVariant st1
          (get4bytes (offset buf 19))
          (get8bytes (offset buf 23))
          (flagOfChar (buf 31%nat))
          (priceOfRaw (get4bytes (offset buf 32)))
          0
      else if Byte.eqb (buf 0%nat) "X"%byte then
        pushVariant st1
          (get4bytes (offset buf 19))
          0
          (flagOfBool false)
          0%float
          0
      else if Byte.eqb (buf 0%nat) "D"%byte then
        pushVariant st1 0 0 (flagOfBool false) 0%float 0
      else if Byte.eqb (buf 0%nat) "U"%byte then
        pushVariant st1
          (get4bytes (offset buf 27))
          0
          (flagOfBool false)
          (priceOfRaw (get4bytes (offset buf 31)))
          (get8bytes (offset buf 19))
      else st1 in
    (true, setMessageCount st2 (incr64 (messageCount st2))).

Definition columnLengths (st : state) : list nat :=
  [ List.length (type st); List.length (locateCode st);
    List.length (trackingNumber st); List.length (timestamp st);
    List.length (orderRef st); List.length (shares st);
    List.length (matchNumber st); List.length (printable st);
    List.length (price st); List.length (newOrderRef st) ].

Definition columns (st : state) :=
  (type st, locateCode st, trackingNumber st, timestamp st, orderRef st,
   shares st, matchNumber st, printable st, price st, newOrderRef st).

End Printable.

(** The two element types a flag column can have in C++:
    [std::vector<char>], where [false] converts to the zero byte, and
    [std::vector<bool>], where a character converts to [true] unless it is
    the zero byte. *)
Definition charOfBool (b : bool) : byte := if b then x01 else x00.
Definition boolOfChar (c : byte) : bool := negb (Byte.eqb c x00).

Definition loadMessagesChar : state -> buffer -> bool * state :=
  loadMessages (fun c : byte => c) charOfBool.
Definition loadMessagesBool : state -> buffer -> bool * state :=
  loadMessages boolOfChar (fun b : bool => b).

End Modifications.

(** ** The orchestrator *)

Module Orchestrator.

(** What [getMessagesTemplate] does to the outside, in order: console
    output (without its line breaks) and the calls of its collaborators. *)
Inductive event :=
| Rcout (s : string)
| RcoutNumber (n : Z)
| CallCountMessages (filename : string) (bufferSize : Z)
| CallReserve (size : Z)
| CallLoadToMessages (filename : string) (startMsgCount endMsgCount : Z)
                     (bufferSize : Z) (quiet : bool)
| CallGetDF.



(** The window of a call of the loader is well ordered. *)
Definition windowOrdered (e : event) : Prop :=
  match e with
  | CallLoadToMessages _ startMsgCount endMsgCount _ _ =>
      startMsgCount <= endMsgCount
  | _ => True
  end.

Section GetMessagesTemplate.

(** The [MessageType&] argument and its virtual functions.  [reserve]
    throws when the allocator does not grant the request: [None]. *)
Variable MessageType : Type.
Variable DataFrame : Type.
Variable msgCountValidMessages : MessageType -> list Z -> Z.
Variable msgReserve : MessageType -> Z -> option MessageType.
Variable msgGetDF : MessageType -> DataFrame.

(** [countMessages] and [loadToMessages] are defined in files that are not
    among the sources: they are parameters.  The decoder is passed by
    reference, so the loader returns the decoder it leaves behind. *)
Variable countMessages : string -> Z -> list Z.
Variable loadToMessages :
  string -> MessageType -> Z -> Z -> Z -> bool -> MessageType.

(** [if (!quiet) Rcpp::Rcout << ...] *)
Definition say (quiet : bool) (e : event) : list event :=
  if quiet then [] else [e].

(** The function returns the data frame, or is left by the exception of
    [msg.reserve], which nothing in it catches: then there is no data
    frame, and what was done up to the call of [reserve] stays done. *)
Definition getMessagesTemplate (msg : MessageType) (filename : string)
    (startMsgCount endMsgCount bufferSize : Z) (quiet : bool)
    : option DataFrame * list event :=
  (* check that the order is correct *)
  let '(startMsgCount, endMsgCount) :=
    if endMsgCount <? startMsgCount
    then (endMsgCount, startMsgCount)
    else (startMsgCount, endMsgCount) in
  (* if no max num given, count valid messages! *)
  let '(endMsgCount, nMessages, log1) :=
    if endMsgCount =? 0 then
      let count := countMessages filename bufferSize in
      let e := msgCountValidMessages msg count in
      (e, wrap64 (e - startMsgCount),
       say quiet (Rcout "[Counting]   ")
       ++ [CallCountMessages filename bufferSize])
    else
      (endMsgCount, wrap64 (endMsgCount - startMsgCount + 1), []) in
  let log2 := say quiet (RcoutNumber nMessages)
              ++ say quiet (Rcout " messages found") in
  match msgReserve msg nMessages with
  | None => (None, log1 ++ log2 ++ [CallReserve nMessages])
  | Some msg =>
      let log3 :=
        [CallReserve nMessages] ++ say quiet (Rcout "[Loading]    ") in
      let msg := loadToMessages filename msg startMsgCount endMsgCount
                                bufferSize quiet in
      let log4 := [CallLoadToMessages filename startMsgCount endMsgCount
                                      bufferSize quiet]
                  ++ say quiet (Rcout "[Converting] to data.table")
                  ++ [CallGetDF] in
      (Some (msgGetDF msg), log1 ++ log2 ++ log3 ++ log4)
  end.

End GetMessagesTemplate.

Arguments getMessagesTemplate {MessageType DataFrame}.

(** *** A loader for the examples *)

(** Modelled from the spec: [loadToMessages] (the Buffered Loader) is not
    among the sources.  The specification has it invoke [loadMessages] once
    per complete frame, in file order, until the decoder signals
    termination or the file ends; the window it is given is the decoder's.
    A file is the list of its frames. *)
Fixpoint loadFrames {St : Type} (load : St -> buffer -> bool * St)
    (st : St) (frames : list buffer) : St :=
  match frames with
  | [] => st
  | f :: rest =>
      let '(continue, st') := load st f in
      if continue then loadFrames load st' rest else st'
  end.

End Orchestrator.

(** ** The decoders as one interface *)

(** The virtual functions of the base class [MessageType], with the
    constructor and the lengths of the columns the variant exports.
    [mtReserve] takes the allocator of the machine first. *)
Class MessageType (St : Type) := {
  mtInit : St;
  mtSetBoundaries : St -> Z -> Z -> St;
  mtReserve : (Z -> bool) -> St -> Z -> option St;
  mtLoadMessages : St -> buffer -> bool * St;
  mtColumnLengths : St -> list nat
}.

#[export] Instance OrdersType : MessageType Orders.state := {
  mtInit := Orders.init;
  mtSetBoundaries := Orders.setBoundaries;
  mtReserve := Orders.reserve;
  mtLoadMessages := Orders.loadMessages;
  mtColumnLengths := Orders.columnLengths
}.

#[export] Instance TradesType : MessageType Trades.state := {
  mtInit := Trades.init;
  mtSetBoundaries := Trades.setBoundaries;
  mtReserve := Trades.reserve;
  mtLoadMessages := Trades.loadMessages;
  mtColumnLengths := Trades.columnLengths
}.

Definition ModificationsType {flag : Type} (flagOfChar : byte -> flag)
    (flagOfBool : bool -> flag) : MessageType (@Modifications.state flag) := {|
  mtInit := Modifications.init;
  mtSetBoundaries := Modifications.setBoundaries;
  mtReserve := Modifications.reserve;
  mtLoadMessages := Modifications.loadMessages flagOfChar flagOfBool;
  mtColumnLengths := Modifications.columnLengths
|}.

(** A call a client can make on a decoder, and a sequence of them run from
    a given state.  A call of [reserve] comes with the answer of the
    allocator: [granted], or not, and then the call throws. *)
Inductive call :=
| SetBoundaries (startMsgCount endMsgCount : Z)
| Reserve (size : Z) (granted : bool)
| LoadMessages (buf : buffer).

(** The decoder after the call.  A [reserve] that throws leaves the
    decoder as it was. *)
Definition perform {St : Type} (D : MessageType St) (st : St) (c : call) : St :=
  match c with
  | SetBoundaries s e => mtSetBoundaries st s e
  | Reserve n granted =>
      match mtReserve (fun _ => granted) st n with
      | Some st' => st'
      | None => st
      end
  | LoadMessages buf => snd (mtLoadMessages st buf)
  end.

Definition run {St : Type} (D : MessageType St) (st : St) (calls : list call)
    : St :=
  fold_left (perform D) calls st.

(** ** Notions the properties are stated with *)

(** The inclusive window of recognised-message indices. *)
Definition inWindow (messageCount startMsgCount endMsgCount : Z) : Prop :=
  startMsgCount <= messageCount <= endMsgCount.

(** All columns have the same length. *)
Definition aligned (lengths : list nat) : Prop :=
  forall n m, In n lengths -> In m lengths -> n = m.

(** The [n] bytes of a field at offset [off], as a string. *)
Definition fieldString (buf : buffer) (off n : nat) : string :=
  string_of_list_ascii
    (map (fun i => ascii_of_byte (buf (off + i)%nat)) (seq 0 n)).

(** A string without any of its space characters. *)
Fixpoint removeSpaces (s : string) : string :=
  match s with
  | EmptyString => EmptyString
  | String c r =>
      if Ascii.eqb c " " then removeSpaces r else String c (removeSpaces r)
  end.

Fixpoint hasSpace (s : string) : bool :=
  match s with
  | EmptyString => false
  | String c r => Ascii.eqb c " " || hasSpace r
  end.

(** Right-space-trimming, in the words of the specification: the string
    with its trailing spaces removed. *)
Fixpoint rtrim (s : string) : string :=
  match s with
  | EmptyString => EmptyString
  | String c r =>
      match rtrim r with
      | EmptyString =>
          if Ascii.eqb c " " then EmptyString else String c EmptyString
      | r' => String c r'
      end
  end.

(** ** Frames for the examples *)

Definition byteOfZ (z : Z) : byte :=
  match Byte.of_N (Z.to_N (z mod 256)) with
  | Some b => b
  | None => x00
  end.

(** The [n] bytes of [z], most significant byte first. *)
Fixpoint bytesBE (n : nat) (z : Z) : list byte :=
  match n with
  | O => []
  | S k => byteOfZ (z / 256 ^ Z.of_nat k) :: bytesBE k z
  end.

(** An add-order frame (['A'], or ['F'] with its four MPID bytes). *)
Definition ordersFrame (ty : byte) (locate tracking time ref : Z)
    (side : byte) (qty : Z) (symbol : string) (rawPrice : Z) (mp : string)
    : buffer :=
  buffer_of_list
    ([ty] ++ bytesBE 2 locate ++ bytesBE 2 tracking ++ bytesBE 6 time
     ++ bytesBE 8 ref ++ [side] ++ bytesBE 4 qty
     ++ list_byte_of_string symbol ++ bytesBE 4 rawPrice
     ++ list_byte_of_string mp).

(** The add order of the specification's scenario. *)
Definition frameAAPL : buffer :=
  ordersFrame "A" 1 0 0 100 "B" 500 "AAPL    " 1500000 "".

(** An add order whose symbol has a space inside. *)
Definition frameBRK : buffer :=
  ordersFrame "A" 1 0 0 101 "S" 20 "BRK A   " 12340000 "".

(** An add order with MPID. *)
Definition frameMSFT : buffer :=
  ordersFrame "F" 7 0 34200000000000 102 "B" 300 "MSFT    " 250 "GSCO".

(** An order-executed frame (['E']). *)
Definition executedFrame (locate tracking time ref qty matchNo : Z) : buffer :=
  buffer_of_list
    (["E"%byte] ++ bytesBE 2 locate ++ bytesBE 2 tracking ++ bytesBE 6 time
     ++ bytesBE 8 ref ++ bytesBE 4 qty ++ bytesBE 8 matchNo).

Definition frameExecuted : buffer := executedFrame 1 0 0 100 200 9001.

(** An order-executed-with-price frame (['C']). *)
Definition frameExecutedPrice : buffer :=
  buffer_of_list
    (["C"%byte] ++ bytesBE 2 1 ++ bytesBE 2 0 ++ bytesBE 6 0
     ++ bytesBE 8 100 ++ bytesBE 4 200 ++ bytesBE 8 9002 ++ ["Y"%byte]
     ++ bytesBE 4 12340000).

(** A non-cross trade frame (['P']). *)
Definition frameTrade : buffer :=
  buffer_of_list
    (["P"%byte] ++ bytesBE 2 1 ++ bytesBE 2 0 ++ bytesBE 6 0
     ++ bytesBE 8 100 ++ ["B"%byte] ++ bytesBE 4 500
     ++ list_byte_of_string "AAPL    " ++ bytesBE 4 250 ++ bytesBE 8 77).

(** A system-event frame (['S']), which no decoder accepts. *)
Definition frameSystem : buffer :=
  buffer_of_list
    (["S"%byte] ++ bytesBE 2 0 ++ bytesBE 2 0 ++ bytesBE 6 0 ++ ["O"%byte]).

(** *** An orchestrated Orders session over a file of four frames *)

Definition exampleFile (filename : string) : list buffer :=
  [frameAAPL; frameSystem; frameBRK; frameMSFT].

(** Modelled from the spec: [countMessages] (the Counting Scanner) is not
    among the sources; it returns a count per type byte.  Here the vector
    has one slot per byte value, and the Orders decoder sums the slots of
    ['A'] and ['F']. *)
Definition exampleCountMessages (filename : string) (bufferSize : Z) : list Z :=
  map (fun t =>
         Z.of_nat (List.length
           (filter (fun f : buffer => (Z.of_nat t =? uchar (f 0%nat)))
                   (exampleFile filename))))
      (seq 0 256).

Definition exampleTypePositions : list nat := [65%nat; 70%nat].

Definition exampleLoadToMessages (filename : string) (msg : Orders.state)
    (startMsgCount endMsgCount bufferSize : Z) (quiet : bool) : Orders.state :=
  Orchestrator.loadFrames Orders.loadMessages
    (Orders.setBoundaries msg startMsgCount endMsgCount)
    (exampleFile filename).

(** The allocator of the examples grants room for fewer than [2^32]
    rows. *)
Definition exampleAllocates (size : Z) : bool := size <? 2 ^ 32.

Definition getOrders (filename : string)
    (startMsgCount endMsgCount bufferSize : Z) (quiet : bool) :=
  Orchestrator.getMessagesTemplate
    (fun (_ : Orders.state) => countValidMessages exampleTypePositions)
    (Orders.reserve exampleAllocates) Orders.columns
    exampleCountMessages exampleLoadToMessages
    Orders.init filename startMsgCount endMsgCount bufferSize quiet.

(** ** Windows over a file *)

(** The frames a decoder counts: those whose type byte is in
    [validTypes], in file order. *)
Definition recognised (validTypes : list byte) (frames : list buffer)
    : list buffer :=
  filter (matchesValidType validTypes) frames.

(** The elements of [l] at the 0-based positions [lo .. hi]. *)
Definition slice {A : Type} (lo hi : Z) (l : list A) : list A :=
  skipn (Z.to_nat lo) (firstn (Z.to_nat (hi + 1)) l).

(** The elements of [l], numbered from [m] on, whose number lies in the
    window [s .. e]. *)
Fixpoint windowRows {A : Type} (m s e : Z) (l : list A) : list A :=
  match l with
  | [] => []
  | x :: r =>
      if (s <=? m) && (m <=? e)
      then x :: windowRows (m + 1) s e r
      else windowRows (m + 1) s e r
  end.

(** The values of a column fit [n] bits. *)
Definition fitsBits (n : Z) (l : list Z) : Prop :=
  Forall (fun x => 0 <= x < 2 ^ n) l.

(** A type column holds only type codes of [validTypes]. *)
Definition onlyTypes (validTypes : list byte) (l : list byte) : Prop :=
  Forall (fun t => In t validTypes) l.

(** ** Data frames *)

(** A column of an [Rcpp::DataFrame]: one of the vectors of a decoder.
    [flag] is the element type of the [printable] column. *)
Inductive column (flag : Type) :=
| CharColumn (l : list byte)
| NumberColumn (l : list Z)
| LogicalColumn (l : list bool)
| StringColumn (l : list string)
| DoubleColumn (l : list float)
| FlagColumn (l : list flag).

Arguments CharColumn {flag}.
Arguments NumberColumn {flag}.
Arguments LogicalColumn {flag}.
Arguments StringColumn {flag}.
Arguments DoubleColumn {flag}.
Arguments FlagColumn {flag}.

Definition columnLength {flag : Type} (c : column flag) : nat :=
  match c with
  | CharColumn l => List.length l
  | NumberColumn l => List.length l
  | LogicalColumn l => List.length l
  | StringColumn l => List.length l
  | DoubleColumn l => List.length l
  | FlagColumn l => List.length l
  end.

(** [Rcpp::DataFrame::create(Rcpp::Named(name) = vector, ...)]: the named
    columns, in the order of creation. *)
Definition DataFrame (flag : Type) := list (string * column flag).

Definition dfNames {flag : Type} (df : DataFrame flag) : list string :=
  map fst df.

Definition dfLengths {flag : Type} (df : DataFrame flag) : list nat :=
  map (fun nc => columnLength (snd nc)) df.

(** [Orders::getDF] *)
Definition getDF_Orders (st : Orders.state) : DataFrame Empty_set :=
  [ ("msg_type"%string, CharColumn (Orders.type st));
    ("locate_code"%string, NumberColumn (Orders.locateCode st));
    ("tracking_number"%string, NumberColumn (Orders.trackingNumber st));
    ("timestamp"%string, NumberColumn (Orders.timestamp st));
    ("order_ref"%string, NumberColumn (Orders.orderRef st));
    ("buy"%string, LogicalColumn (Orders.buy st));
    ("shares"%string, NumberColumn (Orders.shares st));
    ("stock"%string, StringColumn (Orders.stock st));
    ("price"%string, DoubleColumn (Orders.price st));
    ("mpid"%string, StringColumn (Orders.mpid st)) ].

(** [Trades::getDF] *)
Definition getDF_Trades (st : Trades.state) : DataFrame Empty_set :=
  [ ("msg_type"%string, CharColumn (Trades.type st));
    ("locate_code"%string, NumberColumn (Trades.locateCode st));
    ("tracking_number"%string, NumberColumn (Trades.trackingNumber st));
    ("timestamp"%string, NumberColumn (Trades.timestamp st));
    ("order_ref"%string, NumberColumn (Trades.orderRef st));
    ("buy"%string, LogicalColumn (Trades.buy st));
    ("shares"%string, NumberColumn (Trades.shares st));
    ("stock"%string, StringColumn (Trades.stock st));
    ("price"%string, DoubleColumn (Trades.price st));
    ("match_number"%string, NumberColumn (Trades.matchNumber st));
    ("cross_type"%string, CharColumn (Trades.crossType st)) ].

(** [Modifications::getDF] *)
Definition getDF_Modifications {flag : Type} (st : @Modifications.state flag)
    : DataFrame flag :=
  [ ("msg_type"%string, CharColumn (Modifications.type st));
    ("locate_code"%string, NumberColumn (Modifications.locateCode st));
    ("tracking_number"%string, NumberColumn (Modifications.trackingNumber st));
    ("timestamp"%string, NumberColumn (Modifications.timestamp st));
    ("order_ref"%string, NumberColumn (Modifications.orderRef st));
    ("shares"%string, NumberColumn (Modifications.shares st));
    ("match_number"%string, NumberColumn (Modifications.matchNumber st));
    ("printable"%string, FlagColumn (Modifications.printable st));
    ("price"%string, DoubleColumn (Modifications.price st));
    ("new_order_ref"%string, NumberColumn (Modifications.newOrderRef st)) ].

(** ** The exported front ends *)

Definition isRcout (e : Orchestrator.event) : bool :=
  match e with
  | Orchestrator.Rcout _ | Orchestrator.RcoutNumber _ => true
  | _ => false
  end.

Section FrontEnds.

(** [typePositions] of the three variants, [countMessages] and
    [loadToMessages] (which takes any [MessageType&]) are declared or
    defined outside the sources: they are parameters, and so is the
    allocator of the machine. *)
Variable allocates : Z -> bool.
Variable typePositionsOrders : list nat.
Variable typePositionsTrades : list nat.
Variable typePositionsModifications : list nat.
Variable countMessages : string -> Z -> list Z.
Variable loadToMessages :
  forall St : Type, MessageType St ->
    string -> St -> Z -> Z -> Z -> bool -> St.

Definition getOrders_impl (filename : string)
    (startMsgCount endMsgCount bufferSize : Z) (quiet : bool)
    : option (DataFrame Empty_set) * list Orchestrator.event :=
  let orders := Orders.init in
  Orchestrator.getMessagesTemplate
    (fun _ => countValidMessages typePositionsOrders)
    (Orders.reserve allocates) getDF_Orders countMessages
    (loadToMessages Orders.state OrdersType)
    orders filename startMsgCount endMsgCount bufferSize quiet.



End FrontEnds.

(** The loader of the examples, for any decoder. *)
Definition exampleLoader (St : Type) (D : MessageType St) (filename : string)
    (msg : St) (startMsgCount endMsgCount bufferSize : Z) (quiet : bool) : St :=
  Orchestrator.loadFrames mtLoadMessages
    (mtSetBoundaries msg startMsgCount endMsgCount)
    (exampleFile filename).

(** A file with order, trade and modification frames. *)
Definition mixedFile : list buffer :=
  [frameAAPL; frameSystem; frameTrade; frameBRK; frameExecuted; frameMSFT;
   frameExecutedPrice].

(** More frames for the examples: a cross trade (['Q']), a broken trade
    (['B']), an order cancel (['X']), an order delete (['D']) and an order
    replace (['U']). *)
Definition frameCross : buffer :=
  buffer_of_list
    (["Q"%byte] ++ bytesBE 2 3 ++ bytesBE 2 0 ++ bytesBE 6 34200000000000
     ++ bytesBE 4 1000 ++ bytesBE 4 0 ++ list_byte_of_string "MSFT    "
     ++ bytesBE 4 250 ++ bytesBE 8 78 ++ ["O"%byte]).

Definition frameBroken : buffer :=
  buffer_of_list
    (["B"%byte] ++ bytesBE 2 3 ++ bytesBE 2 0 ++ bytesBE 6 34200000000001
     ++ bytesBE 8 78).

Definition frameCancel : buffer :=
  buffer_of_list
    (["X"%byte] ++ bytesBE 2 1 ++ bytesBE 2 0 ++ bytesBE 6 5
     ++ bytesBE 8 100 ++ bytesBE 4 50).

Definition frameDelete : buffer :=
  buffer_of_list
    (["D"%byte] ++ bytesBE 2 1 ++ bytesBE 2 0 ++ bytesBE 6 6
     ++ bytesBE 8 100).

Definition frameReplace : buffer :=
  buffer_of_list
    (["U"%byte] ++ bytesBE 2 1 ++ bytesBE 2 0 ++ bytesBE 6 7
     ++ bytesBE 8 101 ++ bytesBE 8 103 ++ bytesBE 4 20
     ++ bytesBE 4 12340000).

(** * Properties *)

(** ** Properties of the field codec *)

Section FieldCodec.

Lemma uchar_range b : 0 <= uchar b < 256.
Proof. unfold uchar; destruct b; vm_compute; split; congruence. Qed.

Lemma lor_shiftl_add a b k :
  0 <= k -> 0 <= a < 2 ^ k -> Z.lor a (Z.shiftl b k) = a + b * 2 ^ k.
Proof.
  intros Hk Ha.
  assert (Hdisj : Z.land a (Z.shiftl b k) = 0).
  { apply Z.bits_inj'; intros n Hn.
    rewrite Z.land_spec, Z.bits_0.
    destruct (Z.ltb_spec n k).
    - rewrite Z.shiftl_spec_low by lia. apply andb_false_r.
    - destruct (Z.eq_dec a 0) as [->|Hne]; [now rewrite Z.bits_0|].
      rewrite (Z.bits_above_log2 a n); [reflexivity | lia |].
      apply Z.lt_le_trans with k; [|lia].
      apply Z.log2_lt_pow2; lia. }
  rewrite <- Z.lxor_lor, <- Z.add_nocarry_lxor by exact Hdisj.
  now rewrite Z.shiftl_mul_pow2 by lia.
Qed.

(** The little-endian load as a number. *)
Lemma load_uint_S k buf :
  load_uint (S k) buf = uchar (buf 0%nat) + 256 * load_uint k (offset buf 1).
Proof.
  cbn [load_uint]. rewrite lor_shiftl_add; [lia | lia |].
  pose proof (uchar_range (buf 0%nat)). change (2 ^ 8) with 256. lia.
Qed.

Lemma load_uint_nonneg n : forall buf, 0 <= load_uint n buf.
Proof.
  induction n; intros buf; [simpl; lia|].
  rewrite load_uint_S. pose proof (uchar_range (buf 0%nat)).
  specialize (IHn (offset buf 1)). lia.
Qed.

(** The sum of the specification, peeled at its most significant byte. *)
Lemma big_endian_S k buf :
  big_endian (S k) buf
  = uchar (buf 0%nat) * 256 ^ Z.of_nat k + big_endian k (offset buf 1).
Proof.
  unfold big_endian. cbn [seq map fold_right].
  f_equal.
  - f_equal. f_equal. lia.
  - rewrite <- seq_shift, map_map. f_equal.
    apply map_ext; intros i. unfold offset. cbn [Nat.add].
    f_equal. f_equal. lia.
Qed.

(** The same sum, peeled at its least significant byte. *)
Lemma big_endian_snoc k : forall buf,
  big_endian (S k) buf = 256 * big_endian k buf + uchar (buf k).
Proof.
  induction k; intros buf.
  - vm_compute big_endian at 2. unfold big_endian; simpl. lia.
  - rewrite big_endian_S, IHk, (big_endian_S k buf).
    unfold offset at 2. cbn [Nat.add].
    rewrite Nat2Z.inj_succ, Z.pow_succ_r by lia. ring.
Qed.

Lemma big_endian_range n : forall buf, 0 <= big_endian n buf < 256 ^ Z.of_nat n.
Proof.
  induction n; intros buf.
  - vm_compute. split; congruence.
  - rewrite big_endian_snoc, Nat2Z.inj_succ, Z.pow_succ_r by lia.
    specialize (IHn buf). pose proof (uchar_range (buf n)). lia.
Qed.

(** Swapping the bytes of the little-endian load gives the big-endian
    reading. *)
Lemma bswap_load_uint n : forall buf,
  bswap n (load_uint n buf) = big_endian n buf.
Proof.
  induction n; intros buf; [reflexivity|].
  rewrite load_uint_S, big_endian_S. cbn [bswap].
  pose proof (uchar_range (buf 0%nat)) as Hb.
  pose proof (load_uint_nonneg n (offset buf 1)) as Hl.
  change 255 with (Z.ones 8). rewrite Z.land_ones by lia.
  change (2 ^ 8) with 256.
  replace ((uchar (buf 0%nat) + 256 * load_uint n (offset buf 1)) mod 256)
    with (uchar (buf 0%nat)).
  2:{ apply Z.mod_unique_pos with (load_uint n (offset buf 1)); lia. }
  rewrite Z.shiftr_div_pow2 by lia. change (2 ^ 8) with 256.
  replace ((uchar (buf 0%nat) + 256 * load_uint n (offset buf 1)) / 256)
    with (load_uint n (offset buf 1)).
  2:{ apply Z.div_unique_pos with (uchar (buf 0%nat)); lia. }
  rewrite IHn, Z.lor_comm.
  pose proof (big_endian_range n (offset buf 1)) as Hr.
  assert (Hp : 256 ^ Z.of_nat n = 2 ^ (8 * Z.of_nat n)).
  { change 256 with (2 ^ 8). rewrite <- Z.pow_mul_r by lia. reflexivity. }
  rewrite lor_shiftl_add by lia. rewrite Hp. lia.
Qed.

(** Masking off the two low bytes of a 64-bit value and shifting them out
    is the division by [2^16]. *)
Lemma mask_shift_high48 x :
  0 <= x < 2 ^ 64 ->
  Z.shiftr (Z.land x 0xFFFFFFFFFFFF0000) 16 = x / 2 ^ 16.
Proof.
  intros Hx. rewrite <- Z.shiftr_div_pow2 by lia.
  apply Z.bits_inj'; intros n Hn.
  rewrite !Z.shiftr_spec, Z.land_spec by lia.
  change 0xFFFFFFFFFFFF0000 with (Z.shiftl (Z.ones 48) 16).
  rewrite Z.shiftl_spec by lia.
  replace (n + 16 - 16) with n by lia.
  destruct (Z.ltb_spec n 48).
  - rewrite Z.ones_spec_low by lia. apply andb_true_r.
  - rewrite Z.ones_spec_high by lia. rewrite andb_false_r.
    destruct (Z.eq_dec x 0) as [->|Hne]; [now rewrite Z.bits_0|].
    symmetry. apply Z.bits_above_log2; [lia|].
    apply Z.lt_le_trans with 64; [|lia].
    apply Z.log2_lt_pow2; lia.
Qed.

Lemma get2bytes_big_endian buf : get2bytes buf = big_endian 2 buf.
Proof.
  unfold get2bytes, bswap16, wrap32. rewrite bswap_load_uint.
  pose proof (big_endian_range 2 buf) as H.
  change (256 ^ Z.of_nat 2) with (2 ^ 16) in H.
  apply Z.mod_small. lia.
Qed.

Lemma get4bytes_big_endian buf : get4bytes buf = big_endian 4 buf.
Proof.
  unfold get4bytes, bswap32, wrap32. rewrite bswap_load_uint.
  pose proof (big_endian_range 4 buf) as H.
  change (256 ^ Z.of_nat 4) with (2 ^ 32) in H.
  apply Z.mod_small. lia.
Qed.

Lemma get8bytes_big_endian buf : get8bytes buf = big_endian 8 buf.
Proof.
  unfold get8bytes, bswap64, wrap64. rewrite bswap_load_uint.
  pose proof (big_endian_range 8 buf) as H.
  change (256 ^ Z.of_nat 8) with (2 ^ 64) in H.
  apply Z.mod_small. lia.
Qed.

(** [get6bytes] loads eight bytes; the last two are masked off and do not
    reach the result. *)
Lemma get6bytes_big_endian buf : get6bytes buf = big_endian 6 buf.
Proof.
  unfold get6bytes, bswap64, wrap64. rewrite bswap_load_uint.
  pose proof (big_endian_range 6 buf) as H6.
  pose proof (big_endian_range 8 buf) as H8.
  change (256 ^ Z.of_nat 6) with (2 ^ 48) in H6.
  change (256 ^ Z.of_nat 8) with (2 ^ 64) in H8.
  rewrite mask_shift_high48 by exact H8.
  rewrite (big_endian_snoc 7), (big_endian_snoc 6).
  pose proof (uchar_range (buf 6%nat)). pose proof (uchar_range (buf 7%nat)).
  replace (256 * (256 * big_endian 6 buf + uchar (buf 6%nat)) + uchar (buf 7%nat))
    with (big_endian 6 buf * 2 ^ 16 + (256 * uchar (buf 6%nat) + uchar (buf 7%nat)))
    by lia.
  rewrite Z.div_add_l by lia.
  rewrite (Z.div_small (256 * _ + _)) by lia.
  rewrite Z.add_0_r. apply Z.mod_small. lia.
Qed.

End FieldCodec.

(** C8.  [get2bytes], [get4bytes], [get6bytes] and [get8bytes] return the
    unsigned integer formed by the 2, 4, 6 and 8 bytes at the given buffer
    position, most significant byte first: the sum of
    [buf[i] * 256^(n-1-i)] over the [n] designated bytes. *)
Theorem field_codec_big_endian (buf : buffer) :
  get2bytes buf = big_endian 2 buf /\
  get4bytes buf = big_endian 4 buf /\
  get6bytes buf = big_endian 6 buf /\
  get8bytes buf = big_endian 8 buf.
Proof.
  repeat split.
  - apply get2bytes_big_endian.
  - apply get4bytes_big_endian.
  - apply get6bytes_big_endian.
  - apply get8bytes_big_endian.
Qed.

(** The codec on the bytes [01 02 03 04 05 06 07 08]. *)
Example field_codec_example :
  let buf := buffer_of_list [x01; x02; x03; x04; x05; x06; x07; x08] in
  get2bytes buf = 0x0102 /\ get4bytes buf = 0x01020304 /\
  get6bytes buf = 0x010203040506 /\ get8bytes buf = 0x0102030405060708.
Proof. vm_compute. repeat split. Qed.

(** ** The guards shared by the decoders *)

Section Guards.

Lemma matchesValidType_fold (validTypes : list byte) (buf : buffer) :
  forall acc,
    fold_left (fun a t => a || Byte.eqb (buf 0%nat) t) validTypes acc
    = acc || existsb (Byte.eqb (buf 0%nat)) validTypes.
Proof.
  induction validTypes as [|t ts IH]; intros acc; cbn [fold_left existsb].
  - now rewrite orb_false_r.
  - now rewrite IH, orb_assoc.
Qed.

(** The loop over [validTypes] is the membership test. *)
Lemma matchesValidType_In (validTypes : list byte) (buf : buffer) :
  matchesValidType validTypes buf = true <-> In (buf 0%nat) validTypes.
Proof.
  unfold matchesValidType. rewrite matchesValidType_fold, orb_false_l.
  rewrite existsb_exists. split.
  - intros (t & Hin & Heq). apply Byte.byte_dec_bl in Heq. now subst.
  - intros Hin. exists (buf 0%nat). split; [exact Hin|].
    now apply Byte.byte_dec_lb.
Qed.

Lemma matchesValidType_not_In (validTypes : list byte) (buf : buffer) :
  ~ In (buf 0%nat) validTypes -> matchesValidType validTypes buf = false.
Proof.
  intros Hn. destruct (matchesValidType validTypes buf) eqn:E; [|reflexivity].
  apply matchesValidType_In in E. contradiction.
Qed.

Lemma aligned_map_S (l : list nat) : aligned l -> aligned (map S l).
Proof.
  intros H n m Hn Hm.
  apply in_map_iff in Hn as (n' & <- & Hn').
  apply in_map_iff in Hm as (m' & <- & Hm').
  f_equal. now apply H.
Qed.

Lemma aligned_repeat (x : nat) (k : nat) : aligned (repeat x k).
Proof.
  intros n m Hn Hm.
  apply repeat_spec in Hn, Hm. congruence.
Qed.

(** No list of lengths is its own image under [S], unless it is empty. *)
Lemma map_S_neq (l : list nat) : l <> [] -> map S l <> l.
Proof.
  destruct l as [|x l]; [congruence|].
  intros _ H. cbn in H. injection H as H _. lia.
Qed.

Lemma incr64_range n : 0 <= incr64 n < 2 ^ 64.
Proof. unfold incr64, wrap64. apply Z.mod_pos_bound. lia. Qed.

End Guards.

(** Splits [loadMessages] along its three guards. *)
Ltac split_guards V :=
  match goal with
  | |- context [matchesValidType V ?buf] =>
      let E := fresh "Evalid" in
      destruct (matchesValidType V buf) eqn:E; cbn [negb];
      [ match goal with
        | |- context [Z.ltb ?mc ?s] =>
            let E1 := fresh "Ebefore" in
            destruct (Z.ltb_spec mc s) as [E1|E1];
            [ | match goal with
                | |- context [Z.ltb ?e ?mc'] =>
                    let E2 := fresh "Eafter" in
                    destruct (Z.ltb_spec e mc') as [E2|E2]
                end ]
        end
      | ]
  end.

(** ** Orders: the four outcomes of [loadMessages] *)

Section OrdersOutcomes.

Variable st : Orders.state.
Variable buf : buffer.

Lemma orders_unrecognised :
  ~ In (buf 0%nat) Orders.validTypes ->
  Orders.loadMessages st buf = (true, st).
Proof.
  intros H. unfold Orders.loadMessages.
  now rewrite (matchesValidType_not_In _ _ H).
Qed.

Lemma orders_before_window :
  In (buf 0%nat) Orders.validTypes ->
  Orders.messageCount st < Orders.startMsgCount st ->
  Orders.loadMessages st buf
  = (true, Orders.setMessageCount st (incr64 (Orders.messageCount st))).
Proof.
  intros H Hlt. apply matchesValidType_In in H.
  unfold Orders.loadMessages. split_guards Orders.validTypes;
    solve [reflexivity | lia | congruence].
Qed.

Lemma orders_after_window :
  In (buf 0%nat) Orders.validTypes ->
  Orders.startMsgCount st <= Orders.messageCount st ->
  Orders.endMsgCount st < Orders.messageCount st ->
  Orders.loadMessages st buf = (false, st).
Proof.
  intros H Hs He. apply matchesValidType_In in H.
  unfold Orders.loadMessages. split_guards Orders.validTypes;
    solve [reflexivity | lia | congruence].
Qed.

Lemma orders_retained :
  In (buf 0%nat) Orders.validTypes ->
  inWindow (Orders.messageCount st) (Orders.startMsgCount st)
           (Orders.endMsgCount st) ->
  Orders.loadMessages st buf
  = (true,
     Orders.mk (incr64 (Orders.messageCount st))
       (Orders.startMsgCount st) (Orders.endMsgCount st)
       (Orders.type st ++ [buf 0%nat])
       (Orders.locateCode st ++ [get2bytes (offset buf 1)])
       (Orders.trackingNumber st ++ [get2bytes (offset buf 3)])
       (Orders.timestamp st ++ [get6bytes (offset buf 5)])
       (Orders.orderRef st ++ [get8bytes (offset buf 11)])
       (Orders.buy st ++ [Byte.eqb (buf 19%nat) "B"%byte])
       (Orders.shares st ++ [get4bytes (offset buf 20)])
       (Orders.stock st ++ [copyNonWhite buf 24 8 EmptyString])
       (Orders.price st ++ [priceOfRaw (get4bytes (offset buf 32))])
       (Orders.mpid st
        ++ [if Byte.eqb (buf 0%nat) "F"%byte
            then copyNonWhite buf 36 4 EmptyString else EmptyString])).
Proof.
  intros H [Hs He]. apply matchesValidType_In in H.
  unfold Orders.loadMessages. split_guards Orders.validTypes;
    solve [reflexivity | lia | congruence].
Qed.

(** Every call leaves the window bounds alone. *)
Lemma orders_bounds_kept :
  Orders.startMsgCount (snd (Orders.loadMessages st buf)) = Orders.startMsgCount st
  /\ Orders.endMsgCount (snd (Orders.loadMessages st buf)) = Orders.endMsgCount st.
Proof.
  unfold Orders.loadMessages. split_guards Orders.validTypes; split; reflexivity.
Qed.

(** The lengths of the columns after a call: all one longer when the frame
    is retained, all as before otherwise. *)
Lemma orders_lengths :
  Orders.columnLengths (snd (Orders.loadMessages st buf))
  = if matchesValidType Orders.validTypes buf
       && (Orders.startMsgCount st <=? Orders.messageCount st)
       && (Orders.messageCount st <=? Orders.endMsgCount st)
    then map S (Orders.columnLengths st)
    else Orders.columnLengths st.
Proof.
  unfold Orders.loadMessages. split_guards Orders.validTypes; cbn [andb snd].
  - replace (Orders.startMsgCount st <=? Orders.messageCount st) with false
      by (symmetry; apply Z.leb_gt; lia).
    reflexivity.
  - replace (Orders.messageCount st <=? Orders.endMsgCount st) with false
      by (symmetry; apply Z.leb_gt; lia).
    now rewrite andb_false_r.
  - replace (Orders.startMsgCount st <=? Orders.messageCount st) with true
      by (symmetry; apply Z.leb_le; lia).
    replace (Orders.messageCount st <=? Orders.endMsgCount st) with true
      by (symmetry; apply Z.leb_le; lia).
    unfold Orders.columnLengths; cbn [andb map Orders.type Orders.locateCode
      Orders.trackingNumber Orders.timestamp Orders.orderRef Orders.buy
      Orders.shares Orders.stock Orders.price Orders.mpid].
    now rewrite !last_length.
  - reflexivity.
Qed.

End OrdersOutcomes.

(** Decides the tests [buf[0] == c] of a [switch] from a hypothesis [H]
    that fixes the type byte, or leaves both outcomes when [H] does not. *)
Ltac switch_on buf :=
  repeat match goal with
  | |- context [Byte.eqb (buf 0%nat) ?c] =>
      let E := fresh "Etype" in
      destruct (Byte.eqb (buf 0%nat) c) eqn:E
  end.

Ltac type_clash :=
  match goal with
  | H : ?b = ?c, E : Byte.eqb ?b _ = _ |- _ =>
      rewrite H in E; vm_compute in E; discriminate E
  end.

(** Two tests [buf[0] == c] with different [c] cannot both succeed. *)
Ltac two_types :=
  match goal with
  | H1 : Byte.eqb ?b ?c1 = true, H2 : Byte.eqb ?b ?c2 = true |- _ =>
      apply Byte.byte_dec_bl in H1; apply Byte.byte_dec_bl in H2;
      rewrite H1 in H2; discriminate H2
  end.

(** A type byte that passed the filter but matches no [case]. *)
Ltac no_default :=
  exfalso;
  match goal with
  | H : In _ _ |- _ =>
      cbn [In] in H;
      repeat (destruct H as [H|H]; [symmetry in H; type_clash|]);
      exact H
  end.

(** ** Trades: the outcomes of [loadMessages] *)

Section TradesOutcomes.

Variable st : Trades.state.
Variable buf : buffer.

Lemma trades_unrecognised :
  ~ In (buf 0%nat) Trades.validTypes ->
  Trades.loadMessages st buf = (true, st).
Proof.
  intros H. unfold Trades.loadMessages.
  now rewrite (matchesValidType_not_In _ _ H).
Qed.

Lemma trades_before_window :
  In (buf 0%nat) Trades.validTypes ->
  Trades.messageCount st < Trades.startMsgCount st ->
  Trades.loadMessages st buf
  = (true, Trades.setMessageCount st (incr64 (Trades.messageCount st))).
Proof.
  intros H Hlt. apply matchesValidType_In in H.
  unfold Trades.loadMessages. split_guards Trades.validTypes;
    solve [reflexivity | lia | congruence].
Qed.

Lemma trades_after_window :
  In (buf 0%nat) Trades.validTypes ->
  Trades.startMsgCount st <= Trades.messageCount st ->
  Trades.endMsgCount st < Trades.messageCount st ->
  Trades.loadMessages st buf = (false, st).
Proof.
  intros H Hs He. apply matchesValidType_In in H.
  unfold Trades.loadMessages. split_guards Trades.validTypes;
    solve [reflexivity | lia | congruence].
Qed.

Lemma trades_bounds_kept :
  Trades.startMsgCount (snd (Trades.loadMessages st buf)) = Trades.startMsgCount st
  /\ Trades.endMsgCount (snd (Trades.loadMessages st buf)) = Trades.endMsgCount st.
Proof.
  unfold Trades.loadMessages. split_guards Trades.validTypes;
    switch_on buf; split; reflexivity.
Qed.

(** A retained frame pushes to the four common columns and, whatever its
    type, to the seven others. *)
Lemma trades_retained :
  In (buf 0%nat) Trades.validTypes ->
  inWindow (Trades.messageCount st) (Trades.startMsgCount st)
           (Trades.endMsgCount st) ->
  exists o b s k p m c,
    Trades.loadMessages st buf
    = (true,
       Trades.setMessageCount
         (Trades.pushVariant (Trades.pushCommon st buf) o b s k p m c)
         (incr64 (Trades.messageCount st))).
Proof.
  intros H [Hs He]. pose proof H as Hin. apply matchesValidType_In in H.
  unfold Trades.loadMessages. split_guards Trades.validTypes;
    try solve [lia | congruence].
  switch_on buf; try solve [do 7 eexists; reflexivity].
  no_default.
Qed.

Lemma trades_lengths :
  Trades.columnLengths (snd (Trades.loadMessages st buf))
  = if matchesValidType Trades.validTypes buf
       && (Trades.startMsgCount st <=? Trades.messageCount st)
       && (Trades.messageCount st <=? Trades.endMsgCount st)
    then map S (Trades.columnLengths st)
    else Trades.columnLengths st.
Proof.
  destruct (matchesValidType Trades.validTypes buf) eqn:Ev; cbn [andb].
  2:{ rewrite trades_unrecognised; [reflexivity|].
      intros Hin. apply matchesValidType_In in Hin. congruence. }
  apply matchesValidType_In in Ev.
  destruct (Z.leb_spec (Trades.startMsgCount st) (Trades.messageCount st));
    cbn [andb].
  2:{ now rewrite trades_before_window. }
  destruct (Z.leb_spec (Trades.messageCount st) (Trades.endMsgCount st)).
  2:{ now rewrite trades_after_window. }
  destruct (trades_retained Ev) as (o & b & s & k & p & m & c & ->);
    [split; assumption|].
  unfold Trades.columnLengths, Trades.setMessageCount, Trades.pushVariant,
    Trades.pushCommon.
  cbn [snd map Trades.type Trades.locateCode Trades.trackingNumber
       Trades.timestamp Trades.orderRef Trades.buy Trades.shares Trades.stock
       Trades.price Trades.matchNumber Trades.crossType].
  now rewrite !last_length.
Qed.

(** The price pushed by a retained ['P'] or ['Q'] frame. *)
Lemma trades_price :
  In (buf 0%nat) Trades.validTypes ->
  inWindow (Trades.messageCount st) (Trades.startMsgCount st)
           (Trades.endMsgCount st) ->
  Trades.price (snd (Trades.loadMessages st buf))
  = Trades.price st
    ++ [if Byte.eqb (buf 0%nat) "P"%byte
        then priceOfRaw (get4bytes (offset buf 32))
        else if Byte.eqb (buf 0%nat) "Q"%byte
        then priceOfRaw (get4bytes (offset buf 27))
        else 0%float].
Proof.
  intros H [Hs He]. pose proof H as Hin. apply matchesValidType_In in H.
  unfold Trades.loadMessages. split_guards Trades.validTypes;
    try solve [lia | congruence].
  switch_on buf; try reflexivity.
  no_default.
Qed.

End TradesOutcomes.

(** ** Modifications: the outcomes of [loadMessages] *)

Section ModificationsOutcomes.

Context {flag : Type}.
Variable flagOfChar : byte -> flag.
Variable flagOfBool : bool -> flag.
Variable st : @Modifications.state flag.
Variable buf : buffer.

Local Abbreviation load := (Modifications.loadMessages flagOfChar flagOfBool).

Lemma mods_unrecognised :
  ~ In (buf 0%nat) Modifications.validTypes ->
  load st buf = (true, st).
Proof.
  intros H. unfold Modifications.loadMessages.
  now rewrite (matchesValidType_not_In _ _ H).
Qed.

Lemma mods_before_window :
  In (buf 0%nat) Modifications.validTypes ->
  Modifications.messageCount st < Modifications.startMsgCount st ->
  load st buf
  = (true,
     Modifications.setMessageCount st (incr64 (Modifications.messageCount st))).
Proof.
  intros H Hlt. apply matchesValidType_In in H.
  unfold Modifications.loadMessages.
  split_guards Modifications.validTypes;
    solve [reflexivity | lia | congruence].
Qed.

Lemma mods_after_window :
  In (buf 0%nat) Modifications.validTypes ->
  Modifications.startMsgCount st <= Modifications.messageCount st ->
  Modifications.endMsgCount st < Modifications.messageCount st ->
  load st buf = (false, st).
Proof.
  intros H Hs He. apply matchesValidType_In in H.
  unfold Modifications.loadMessages.
  split_guards Modifications.validTypes;
    solve [reflexivity | lia | congruence].
Qed.

Lemma mods_bounds_kept :
  Modifications.startMsgCount (snd (load st buf)) = Modifications.startMsgCount st
  /\ Modifications.endMsgCount (snd (load st buf)) = Modifications.endMsgCount st.
Proof.
  unfold Modifications.loadMessages.
  split_guards Modifications.validTypes; switch_on buf; split; reflexivity.
Qed.

(** A retained frame pushes to the five common columns and, whatever its
    type, to the five others. *)
Lemma mods_retained :
  In (buf 0%nat) Modifications.validTypes ->
  inWindow (Modifications.messageCount st) (Modifications.startMsgCount st)
           (Modifications.endMsgCount st) ->
  exists s m pr p n,
    load st buf
    = (true,
       Modifications.setMessageCount
         (Modifications.pushVariant (Modifications.pushCommon st buf)
                                    s m pr p n)
         (incr64 (Modifications.messageCount st))).
Proof.
  intros H [Hs He]. pose proof H as Hin. apply matchesValidType_In in H.
  unfold Modifications.loadMessages.
  split_guards Modifications.validTypes; try solve [lia | congruence].
  switch_on buf; try solve [do 5 eexists; reflexivity].
  no_default.
Qed.

Lemma mods_lengths :
  Modifications.columnLengths (snd (load st buf))
  = if matchesValidType Modifications.validTypes buf
       && (Modifications.startMsgCount st <=? Modifications.messageCount st)
       && (Modifications.messageCount st <=? Modifications.endMsgCount st)
    then map S (Modifications.columnLengths st)
    else Modifications.columnLengths st.
Proof.
  destruct (matchesValidType Modifications.validTypes buf) eqn:Ev; cbn [andb].
  2:{ rewrite mods_unrecognised; [reflexivity|].
      intros Hin. apply matchesValidType_In in Hin. congruence. }
  apply matchesValidType_In in Ev.
  destruct (Z.leb_spec (Modifications.startMsgCount st)
                       (Modifications.messageCount st)); cbn [andb].
  2:{ now rewrite mods_before_window. }
  destruct (Z.leb_spec (Modifications.messageCount st)
                       (Modifications.endMsgCount st)).
  2:{ now rewrite mods_after_window. }
  destruct (mods_retained Ev) as (s & m & pr & p & n & ->);
    [split; assumption|].
  unfold Modifications.columnLengths, Modifications.setMessageCount,
    Modifications.pushVariant, Modifications.pushCommon.
  cbn [snd map Modifications.type Modifications.locateCode
       Modifications.trackingNumber Modifications.timestamp
       Modifications.orderRef Modifications.shares Modifications.matchNumber
       Modifications.printable Modifications.price Modifications.newOrderRef].
  now rewrite !last_length.
Qed.

(** What a retained ['E'] frame pushes. *)
Lemma mods_executed :
  buf 0%nat = "E"%byte ->
  inWindow (Modifications.messageCount st) (Modifications.startMsgCount st)
           (Modifications.endMsgCount st) ->
  load st buf
  = (true,
     Modifications.setMessageCount
       (Modifications.pushVariant (Modifications.pushCommon st buf)
          (get4bytes (offset buf 19)) (get8bytes (offset buf 23))
          (flagOfChar "N"%byte) 0%float 0)
       (incr64 (Modifications.messageCount st))).
Proof.
  intros HE [Hs He].
  assert (H : matchesValidType Modifications.validTypes buf = true).
  { apply matchesValidType_In. rewrite HE. cbn. auto. }
  unfold Modifications.loadMessages.
  split_guards Modifications.validTypes; try solve [lia | congruence].
  switch_on buf; try reflexivity; type_clash.
Qed.

(** The price pushed by a retained frame: decoded for ['C'] and ['U']. *)
Lemma mods_price :
  In (buf 0%nat) Modifications.validTypes ->
  inWindow (Modifications.messageCount st) (Modifications.startMsgCount st)
           (Modifications.endMsgCount st) ->
  Modifications.price (snd (load st buf))
  = Modifications.price st
    ++ [if Byte.eqb (buf 0%nat) "C"%byte
        then priceOfRaw (get4bytes (offset buf 32))
        else if Byte.eqb (buf 0%nat) "U"%byte
        then priceOfRaw (get4bytes (offset buf 31))
        else 0%float].
Proof.
  intros H [Hs He]. pose proof H as Hin. apply matchesValidType_In in H.
  unfold Modifications.loadMessages.
  split_guards Modifications.validTypes; try solve [lia | congruence].
  switch_on buf; try reflexivity; try two_types.
  no_default.
Qed.

End ModificationsOutcomes.

(** ** Runs of calls *)

(** A reservation that is granted returns the decoder it was given. *)
Lemma orders_reserve_same allocates st n st' :
  Orders.reserve allocates st n = Some st' -> st' = st.
Proof. unfold Orders.reserve. destruct (allocates n); congruence. Qed.

Lemma trades_reserve_same allocates st n st' :
  Trades.reserve allocates st n = Some st' -> st' = st.
Proof. unfold Trades.reserve. destruct (allocates n); congruence. Qed.

Lemma mods_reserve_same {flag : Type} allocates
    (st st' : @Modifications.state flag) n :
  Modifications.reserve allocates st n = Some st' -> st' = st.
Proof. unfold Modifications.reserve. destruct (allocates n); congruence. Qed.

Section Runs.

Context {St : Type} (D : MessageType St).

Hypothesis init_aligned : aligned (mtColumnLengths mtInit).
Hypothesis setBoundaries_lengths : forall st s e,
  mtColumnLengths (mtSetBoundaries st s e) = mtColumnLengths st.
Hypothesis reserve_lengths : forall allocates st n st',
  mtReserve allocates st n = Some st' ->
  mtColumnLengths st' = mtColumnLengths st.
Hypothesis load_lengths : forall st buf,
  mtColumnLengths (snd (mtLoadMessages st buf)) = mtColumnLengths st
  \/ mtColumnLengths (snd (mtLoadMessages st buf)) = map S (mtColumnLengths st).

Lemma perform_aligned (st : St) (c : call) :
  aligned (mtColumnLengths st) -> aligned (mtColumnLengths (perform D st c)).
Proof.
  intros H. destruct c as [s e|n granted|buf]; cbn [perform].
  - now rewrite setBoundaries_lengths.
  - destruct (mtReserve (fun _ => granted) st n) as [st'|] eqn:E;
      [|exact H].
    now rewrite (reserve_lengths _ _ _ _ E).
  - destruct (load_lengths st buf) as [-> | ->];
      [assumption | now apply aligned_map_S].
Qed.

Lemma run_aligned (calls : list call) : forall st,
  aligned (mtColumnLengths st) -> aligned (mtColumnLengths (run D st calls)).
Proof.
  unfold run. induction calls as [|c calls IH]; intros st H; cbn [fold_left].
  - exact H.
  - apply IH. now apply perform_aligned.
Qed.

Lemma run_from_init_aligned (calls : list call) :
  aligned (mtColumnLengths (run D mtInit calls)).
Proof. apply run_aligned, init_aligned. Qed.

(** A state that no frame changes stays as it is for the rest of the
    session. *)
Lemma run_stuck (st : St) :
  (forall buf, snd (mtLoadMessages st buf) = st) ->
  forall frames, run D st (map LoadMessages frames) = st.
Proof.
  intros Hstuck frames. unfold run.
  induction frames as [|f frames IH]; cbn [map fold_left perform].
  - reflexivity.
  - now rewrite Hstuck.
Qed.

End Runs.

Lemma if_either {A : Type} (b : bool) (x y z : A) :
  z = (if b then x else y) -> z = y \/ z = x.
Proof. destruct b; auto. Qed.

(** C1.  For each decoder variant (Orders, Trades, Modifications) and every
    sequence of calls made on the freshly constructed decoder, all output
    columns of the variant have the same length after every call. *)
Theorem columns_aligned_after_every_call :
  (forall calls,
     aligned (Orders.columnLengths (run OrdersType Orders.init calls))) /\
  (forall calls,
     aligned (Trades.columnLengths (run TradesType Trades.init calls))) /\
  (forall (flag : Type) (flagOfChar : byte -> flag) (flagOfBool : bool -> flag)
          calls,
     aligned (Modifications.columnLengths
                (run (ModificationsType flagOfChar flagOfBool)
                     Modifications.init calls))).
Proof.
  split; [|split].
  - intros calls. apply (run_from_init_aligned OrdersType).
    + apply (aligned_repeat 0 10).
    + reflexivity.
    + intros a st n st' H. now rewrite (orders_reserve_same _ _ _ _ H).
    + intros st buf. apply (if_either _ _ _ _ (orders_lengths st buf)).
  - intros calls. apply (run_from_init_aligned TradesType).
    + apply (aligned_repeat 0 11).
    + reflexivity.
    + intros a st n st' H. now rewrite (trades_reserve_same _ _ _ _ H).
    + intros st buf. apply (if_either _ _ _ _ (trades_lengths st buf)).
  - intros flag c b calls.
    apply (run_from_init_aligned (ModificationsType c b)).
    + apply (aligned_repeat 0 10).
    + reflexivity.
    + intros a st n st' H. now rewrite (mods_reserve_same _ _ _ _ H).
    + intros st buf. apply (if_either _ _ _ _ (mods_lengths c b st buf)).
Qed.

(** The columns after the three Orders frames of the example file, with a
    reservation that is granted and one that is not in between. *)
Example columns_aligned_example :
  Orders.columnLengths
    (run OrdersType Orders.init
         [LoadMessages frameAAPL; LoadMessages frameSystem; Reserve 8 true;
          LoadMessages frameBRK; Reserve (2 ^ 62) false; SetBoundaries 0 2;
          LoadMessages frameMSFT])
  = repeat 3%nat 10.
Proof. vm_compute. reflexivity. Qed.

(** ** The window *)

Lemma window_test (mc s e : Z) :
  (s <=? mc) && (mc <=? e) = true <-> inWindow mc s e.
Proof. unfold inWindow. rewrite andb_true_iff, !Z.leb_le. tauto. Qed.

Lemma lengths_grow_iff (b : bool) (mc s e : Z) (l l' : list nat) :
  l <> [] ->
  l' = (if b && (s <=? mc) && (mc <=? e) then map S l else l) ->
  b = true ->
  (l' = map S l <-> inWindow mc s e).
Proof.
  intros Hne -> ->. cbn [andb]. rewrite <- window_test.
  destruct ((s <=? mc) && (mc <=? e)); split; intros H;
    try reflexivity; try discriminate.
  symmetry in H. now apply map_S_neq in H.
Qed.

(** C2.  On a frame whose type byte is in the variant's [validTypes], the
    fields of the frame are appended to the output columns if and only if
    the decoder's [messageCount] at the time of the call lies in the
    inclusive window [startMsgCount .. endMsgCount]: inside the window every
    column grows by one element (for Orders, the ten decoded fields), and
    outside it no column changes. *)
Theorem retained_iff_in_window :
  (forall st buf,
     In (buf 0%nat) Orders.validTypes ->
     let st' := snd (Orders.loadMessages st buf) in
     let w := inWindow (Orders.messageCount st) (Orders.startMsgCount st)
                       (Orders.endMsgCount st) in
     (Orders.columnLengths st' = map S (Orders.columnLengths st) <-> w) /\
     (w -> Orders.columns st'
           = (Orders.type st ++ [buf 0%nat],
              Orders.locateCode st ++ [get2bytes (offset buf 1)],
              Orders.trackingNumber st ++ [get2bytes (offset buf 3)],
              Orders.timestamp st ++ [get6bytes (offset buf 5)],
              Orders.orderRef st ++ [get8bytes (offset buf 11)],
              Orders.buy st ++ [Byte.eqb (buf 19%nat) "B"%byte],
              Orders.shares st ++ [get4bytes (offset buf 20)],
              Orders.stock st ++ [copyNonWhite buf 24 8 EmptyString],
              Orders.price st ++ [priceOfRaw (get4bytes (offset buf 32))],
              Orders.mpid st
              ++ [if Byte.eqb (buf 0%nat) "F"%byte
                  then copyNonWhite buf 36 4 EmptyString
                  else EmptyString])) /\
     (~ w -> Orders.columns st' = Orders.columns st)) /\
  (forall st buf,
     In (buf 0%nat) Trades.validTypes ->
     let st' := snd (Trades.loadMessages st buf) in
     let w := inWindow (Trades.messageCount st) (Trades.startMsgCount st)
                       (Trades.endMsgCount st) in
     (Trades.columnLengths st' = map S (Trades.columnLengths st) <-> w) /\
     (w -> exists o b s k p m c,
             Trades.columns st'
             = Trades.columns
                 (Trades.pushVariant (Trades.pushCommon st buf) o b s k p m c)) /\
     (~ w -> Trades.columns st' = Trades.columns st)) /\
  (forall (flag : Type) (flagOfChar : byte -> flag) (flagOfBool : bool -> flag)
          st buf,
     In (buf 0%nat) Modifications.validTypes ->
     let st' := snd (Modifications.loadMessages flagOfChar flagOfBool st buf) in
     let w := inWindow (Modifications.messageCount st)
                       (Modifications.startMsgCount st)
                       (Modifications.endMsgCount st) in
     (Modifications.columnLengths st'
      = map S (Modifications.columnLengths st) <-> w) /\
     (w -> exists s m pr p n,
             Modifications.columns st'
             = Modifications.columns
                 (Modifications.pushVariant (Modifications.pushCommon st buf)
                                            s m pr p n)) /\
     (~ w -> Modifications.columns st' = Modifications.columns st)).
Proof.
  split; [|split].
  - intros st buf Hin st' w. subst st' w.
    assert (Hne : Orders.columnLengths st <> []) by discriminate.
    split; [|split].
    + exact (lengths_grow_iff _ _ _ _ _ _ Hne (orders_lengths st buf)
               (proj2 (matchesValidType_In _ _) Hin)).
    + intros Hw. now rewrite (orders_retained st buf Hin Hw).
    + intros Hw. unfold inWindow in Hw.
      destruct (Z.lt_ge_cases (Orders.messageCount st) (Orders.startMsgCount st)).
      * now rewrite orders_before_window.
      * rewrite orders_after_window; [reflexivity | assumption | lia | lia].
  - intros st buf Hin st' w. subst st' w.
    assert (Hne : Trades.columnLengths st <> []) by discriminate.
    split; [|split].
    + exact (lengths_grow_iff _ _ _ _ _ _ Hne (trades_lengths st buf)
               (proj2 (matchesValidType_In _ _) Hin)).
    + intros Hw.
      destruct (trades_retained st buf Hin Hw)
        as (o & b & s & k & p & m & c & E).
      exists o, b, s, k, p, m, c. now rewrite E.
    + intros Hw. unfold inWindow in Hw.
      destruct (Z.lt_ge_cases (Trades.messageCount st) (Trades.startMsgCount st)).
      * now rewrite trades_before_window.
      * rewrite trades_after_window; [reflexivity | assumption | lia | lia].
  - intros flag fc fb st buf Hin st' w. subst st' w.
    assert (Hne : Modifications.columnLengths st <> []) by discriminate.
    split; [|split].
    + exact (lengths_grow_iff _ _ _ _ _ _ Hne (mods_lengths fc fb st buf)
               (proj2 (matchesValidType_In _ _) Hin)).
    + intros Hw.
      destruct (mods_retained fc fb st buf Hin Hw) as (s & m & pr & p & n & E).
      exists s, m, pr, p, n. now rewrite E.
    + intros Hw. unfold inWindow in Hw.
      destruct (Z.lt_ge_cases (Modifications.messageCount st)
                              (Modifications.startMsgCount st)).
      * now rewrite mods_before_window.
      * rewrite mods_after_window; [reflexivity | assumption | lia | lia].
Qed.

Lemma retained_iff_in_window_witness :
  In (frameAAPL 0%nat) Orders.validTypes /\
  (Orders.columnLengths (snd (Orders.loadMessages Orders.init frameAAPL))
   = map S (Orders.columnLengths Orders.init)
   <-> inWindow 0 0 defaultEndMsgCount).
Proof.
  assert (H : In (frameAAPL 0%nat) Orders.validTypes)
    by (vm_compute; auto).
  split; [exact H|].
  exact (proj1 (proj1 retained_iff_in_window Orders.init frameAAPL H)).
Defined.

(** With the window [1 .. 1], the first add order of the example file is
    counted and skipped, the second is retained, the third ends the scan. *)
Example window_example :
  let st0 := Orders.setBoundaries Orders.init 1 1 in
  let r1 := Orders.loadMessages st0 frameAAPL in
  let r2 := Orders.loadMessages (snd r1) frameBRK in
  let r3 := Orders.loadMessages (snd r2) frameMSFT in
  (fst r1, Orders.stock (snd r1)) = (true, [])
  /\ (fst r2, Orders.stock (snd r2)) = (true, ["BRKA"%string])
  /\ r3 = (false, snd r2).
Proof. vm_compute. repeat split. Qed.

(** ** Early exit *)

(** C3 (as the code has it).  For each decoder variant whose window is
    well ordered ([startMsgCount <= endMsgCount], as the orchestrator hands
    it over): once [messageCount > endMsgCount], a [loadMessages] call on a
    frame of a recognised type returns [false] and leaves the decoder state
    unchanged, so that no frame is decoded for the rest of the session; and
    [loadMessages] returns [false] in no other case. *)
Theorem window_exceeded_stops :
  (forall st buf,
     Orders.startMsgCount st <= Orders.endMsgCount st ->
     (In (buf 0%nat) Orders.validTypes ->
      Orders.endMsgCount st < Orders.messageCount st ->
      Orders.loadMessages st buf = (false, st)) /\
     (Orders.endMsgCount st < Orders.messageCount st ->
      forall frames, run OrdersType st (map LoadMessages frames) = st) /\
     (fst (Orders.loadMessages st buf) = false ->
      In (buf 0%nat) Orders.validTypes /\
      Orders.endMsgCount st < Orders.messageCount st)) /\
  (forall st buf,
     Trades.startMsgCount st <= Trades.endMsgCount st ->
     (In (buf 0%nat) Trades.validTypes ->
      Trades.endMsgCount st < Trades.messageCount st ->
      Trades.loadMessages st buf = (false, st)) /\
     (Trades.endMsgCount st < Trades.messageCount st ->
      forall frames, run TradesType st (map LoadMessages frames) = st) /\
     (fst (Trades.loadMessages st buf) = false ->
      In (buf 0%nat) Trades.validTypes /\
      Trades.endMsgCount st < Trades.messageCount st)) /\
  (forall (flag : Type) (flagOfChar : byte -> flag) (flagOfBool : bool -> flag)
          st buf,
     Modifications.startMsgCount st <= Modifications.endMsgCount st ->
     (In (buf 0%nat) Modifications.validTypes ->
      Modifications.endMsgCount st < Modifications.messageCount st ->
      Modifications.loadMessages flagOfChar flagOfBool st buf = (false, st)) /\
     (Modifications.endMsgCount st < Modifications.messageCount st ->
      forall frames,
        run (ModificationsType flagOfChar flagOfBool) st
            (map LoadMessages frames) = st) /\
     (fst (Modifications.loadMessages flagOfChar flagOfBool st buf) = false ->
      In (buf 0%nat) Modifications.validTypes /\
      Modifications.endMsgCount st < Modifications.messageCount st)).
Proof.
  split; [|split].
  - intros st buf Hord. split; [|split].
    + intros Hin Hgt. apply orders_after_window; [assumption | lia | lia].
    + intros Hgt. apply (run_stuck OrdersType). intros b. cbn.
      destruct (in_dec Byte.byte_eq_dec (b 0%nat) Orders.validTypes) as [Hin|Hn].
      * rewrite orders_after_window; [reflexivity | assumption | lia | lia].
      * now rewrite orders_unrecognised.
    + unfold Orders.loadMessages. split_guards Orders.validTypes;
        cbn [fst]; try discriminate.
      intros _. split; [now apply matchesValidType_In | assumption].
  - intros st buf Hord. split; [|split].
    + intros Hin Hgt. apply trades_after_window; [assumption | lia | lia].
    + intros Hgt. apply (run_stuck TradesType). intros b. cbn.
      destruct (in_dec Byte.byte_eq_dec (b 0%nat) Trades.validTypes) as [Hin|Hn].
      * rewrite trades_after_window; [reflexivity | assumption | lia | lia].
      * now rewrite trades_unrecognised.
    + unfold Trades.loadMessages. split_guards Trades.validTypes;
        cbn [fst]; try discriminate.
      intros _. split; [now apply matchesValidType_In | assumption].
  - intros flag fc fb st buf Hord. split; [|split].
    + intros Hin Hgt. apply mods_after_window; [assumption | lia | lia].
    + intros Hgt. apply (run_stuck (ModificationsType fc fb)). intros b. cbn.
      destruct (in_dec Byte.byte_eq_dec (b 0%nat) Modifications.validTypes)
        as [Hin|Hn].
      * rewrite mods_after_window; [reflexivity | assumption | lia | lia].
      * now rewrite mods_unrecognised.
    + unfold Modifications.loadMessages.
      split_guards Modifications.validTypes; cbn [fst]; try discriminate.
      intros _. split; [now apply matchesValidType_In | assumption].
Qed.

Lemma window_exceeded_stops_witness :
  Orders.loadMessages
    (snd (Orders.loadMessages (Orders.setBoundaries Orders.init 0 0) frameAAPL))
    frameBRK
  = (false,
     snd (Orders.loadMessages (Orders.setBoundaries Orders.init 0 0) frameAAPL)).
Proof.
  apply (proj1 (proj1 window_exceeded_stops
                  (snd (Orders.loadMessages
                          (Orders.setBoundaries Orders.init 0 0) frameAAPL))
                  frameBRK ltac:(vm_compute; discriminate))).
  - vm_compute. auto.
  - vm_compute. reflexivity.
Defined.

(** C3 as stated fails: it needs the window to be well ordered.  After
    [setBoundaries(2, 0)] and one add order, [messageCount = 1] exceeds
    [endMsgCount = 0]; the test [messageCount < startMsgCount] comes first,
    so the next add order is counted and [loadMessages] returns [true]. *)
Lemma inverted_window_counts_on :
  let st :=
    snd (Orders.loadMessages (Orders.setBoundaries Orders.init 2 0)
                             frameAAPL) in
  In (frameBRK 0%nat) Orders.validTypes
  /\ Orders.endMsgCount st < Orders.messageCount st
  /\ Orders.loadMessages st frameBRK <> (false, st)
  /\ fst (Orders.loadMessages st frameBRK) = true
  /\ Orders.messageCount st = 1
  /\ Orders.messageCount (snd (Orders.loadMessages st frameBRK)) = 2.
Proof.
  cbv zeta. split; [vm_compute; auto|]. split; [vm_compute; reflexivity|].
  split; [vm_compute; intros H; discriminate H|].
  vm_compute. repeat split.
Qed.

(** ** Frames of other types *)

(** C9.  On a frame whose type byte is not in the variant's [validTypes],
    [loadMessages] returns [true] and leaves the whole decoder state as it
    was: [messageCount] is not incremented and no column is modified,
    wherever the window stands. *)
Theorem unrecognised_frame_skipped :
  (forall st buf,
     ~ In (buf 0%nat) Orders.validTypes ->
     Orders.loadMessages st buf = (true, st)) /\
  (forall st buf,
     ~ In (buf 0%nat) Trades.validTypes ->
     Trades.loadMessages st buf = (true, st)) /\
  (forall (flag : Type) (flagOfChar : byte -> flag) (flagOfBool : bool -> flag)
          st buf,
     ~ In (buf 0%nat) Modifications.validTypes ->
     Modifications.loadMessages flagOfChar flagOfBool st buf = (true, st)).
Proof.
  split; [|split].
  - exact orders_unrecognised.
  - exact trades_unrecognised.
  - intros flag fc fb. exact (mods_unrecognised fc fb).
Qed.

Lemma unrecognised_frame_skipped_witness :
  Orders.loadMessages (Orders.setBoundaries Orders.init 3 5) frameSystem
  = (true, Orders.setBoundaries Orders.init 3 5)
  /\ Trades.loadMessages Trades.init frameAAPL = (true, Trades.init)
  /\ Modifications.loadMessagesChar Modifications.init frameTrade
     = (true, Modifications.init).
Proof.
  split; [|split].
  - apply (proj1 unrecognised_frame_skipped).
    vm_compute. intros [H|[H|[]]]; discriminate H.
  - apply (proj1 (proj2 unrecognised_frame_skipped)).
    vm_compute. intros [H|[H|[H|[]]]]; discriminate H.
  - apply (proj2 (proj2 unrecognised_frame_skipped)).
    vm_compute. intros [H|[H|[H|[H|[H|[]]]]]]; discriminate H.
Defined.

(** ** Text fields *)

Section TextFields.

Local Open Scope string_scope.

Lemma append_empty_r (s : string) : s ++ "" = s.
Proof. induction s as [|c s IH]; cbn; [reflexivity | now rewrite IH]. Qed.

Lemma append_assoc (s t u : string) : (s ++ t) ++ u = s ++ (t ++ u).
Proof. induction s as [|c s IH]; cbn; [reflexivity | now rewrite IH]. Qed.

Lemma white_is_space (b : byte) :
  Byte.eqb b white = Ascii.eqb (ascii_of_byte b) " ".
Proof. destruct b; reflexivity. Qed.

(** The copying loop appends the field without its spaces. *)
Lemma copyNonWhite_fold (buf : buffer) (off : nat) (idx : list nat) :
  forall s,
    fold_left
      (fun acc i =>
         if Byte.eqb (buf (off + i)%nat) white then acc
         else acc ++ String (ascii_of_byte (buf (off + i)%nat)) "")
      idx s
    = s ++ removeSpaces
             (string_of_list_ascii
                (map (fun i => ascii_of_byte (buf (off + i)%nat)) idx)).
Proof.
  induction idx as [|i idx IH]; intros s;
    cbn [fold_left map string_of_list_ascii removeSpaces].
  - now rewrite append_empty_r.
  - rewrite IH, white_is_space.
    destruct (Ascii.eqb (ascii_of_byte (buf (off + i)%nat)) " ").
    + reflexivity.
    + now rewrite append_assoc.
Qed.

Lemma copyNonWhite_removeSpaces (buf : buffer) (off n : nat) :
  copyNonWhite buf off n "" = removeSpaces (fieldString buf off n).
Proof. unfold copyNonWhite, fieldString. now rewrite copyNonWhite_fold. Qed.

(** Removing all spaces makes the trailing ones irrelevant. *)
Lemma removeSpaces_rtrim (s : string) :
  removeSpaces (rtrim s) = removeSpaces s.
Proof.
  induction s as [|c s IH]; [reflexivity|].
  cbn [rtrim removeSpaces].
  destruct (rtrim s) as [|d r] eqn:E.
  - cbn [removeSpaces] in IH. rewrite <- IH.
    destruct (Ascii.eqb c " ") eqn:Ec; cbn [removeSpaces]; now rewrite ?Ec.
  - cbn [removeSpaces] in *. now rewrite IH.
Qed.

Lemma removeSpaces_no_space (s : string) :
  hasSpace s = false -> removeSpaces s = s.
Proof.
  induction s as [|c s IH]; [reflexivity|].
  cbn [hasSpace removeSpaces]. intros H.
  apply orb_false_iff in H as [-> Hs]. now rewrite IH.
Qed.

End TextFields.

(** C4 (as the code has it).  For every retained Orders frame (type ['A']
    or ['F']), the value pushed to the [stock] column is the 8-byte symbol
    field with every space character removed.  It is the right-trimmed
    field whenever the right-trimmed field holds no further space; in
    particular the field ["AAPL    "] decodes to ["AAPL"]. *)
Theorem stock_is_field_without_spaces (st : Orders.state) (buf : buffer) :
  In (buf 0%nat) Orders.validTypes ->
  inWindow (Orders.messageCount st) (Orders.startMsgCount st)
           (Orders.endMsgCount st) ->
  let st' := snd (Orders.loadMessages st buf) in
  Orders.stock st' = Orders.stock st ++ [removeSpaces (fieldString buf 24 8)]
  /\ (hasSpace (rtrim (fieldString buf 24 8)) = false ->
      Orders.stock st' = Orders.stock st ++ [rtrim (fieldString buf 24 8)])
  /\ (fieldString buf 24 8 = "AAPL    "%string ->
      Orders.stock st' = Orders.stock st ++ ["AAPL"%string]).
Proof.
  intros Hin Hw st'. subst st'.
  rewrite (orders_retained st buf Hin Hw). cbn [snd Orders.stock].
  rewrite copyNonWhite_removeSpaces. split; [reflexivity|split].
  - intros Hs. now rewrite <- removeSpaces_rtrim, removeSpaces_no_space.
  - intros ->. reflexivity.
Qed.

Lemma stock_is_field_without_spaces_witness :
  Orders.stock (snd (Orders.loadMessages Orders.init frameAAPL))
  = ["AAPL"%string].
Proof.
  apply (proj2 (proj2 (stock_is_field_without_spaces Orders.init frameAAPL
          ltac:(vm_compute; auto)
          ltac:(vm_compute; split; discriminate)))).
  vm_compute. reflexivity.
Defined.

(** C4 as stated fails: the symbol field ["BRK A   "] is decoded to
    ["BRKA"], while its right-trimmed value is ["BRK A"]. *)
Lemma stock_not_right_trimmed :
  In (frameBRK 0%nat) Orders.validTypes
  /\ inWindow (Orders.messageCount Orders.init)
              (Orders.startMsgCount Orders.init)
              (Orders.endMsgCount Orders.init)
  /\ fieldString frameBRK 24 8 = "BRK A   "%string
  /\ rtrim (fieldString frameBRK 24 8) = "BRK A"%string
  /\ Orders.stock (snd (Orders.loadMessages Orders.init frameBRK))
     = ["BRKA"%string]
  /\ Orders.stock (snd (Orders.loadMessages Orders.init frameBRK))
     <> Orders.stock Orders.init ++ [rtrim (fieldString frameBRK 24 8)].
Proof.
  repeat split; try (vm_compute; auto; discriminate).
Qed.

(** ** Executed orders *)

(** What the code pushes for a retained Modifications frame of type
    ['E']: the executed shares and the match number from the bytes behind
    the common fields, [0.0] and [0] to the price and new-order-reference
    columns, and the character ['N'], converted to the element type of the
    column, to the printable column. *)
Theorem executed_frame_columns {flag : Type} (flagOfChar : byte -> flag)
    (flagOfBool : bool -> flag) (st : Modifications.state) (buf : buffer) :
  buf 0%nat = "E"%byte ->
  inWindow (Modifications.messageCount st) (Modifications.startMsgCount st)
           (Modifications.endMsgCount st) ->
  Modifications.columns
    (snd (Modifications.loadMessages flagOfChar flagOfBool st buf))
  = (Modifications.type st ++ ["E"%byte],
     Modifications.locateCode st ++ [get2bytes (offset buf 1)],
     Modifications.trackingNumber st ++ [get2bytes (offset buf 3)],
     Modifications.timestamp st ++ [get6bytes (offset buf 5)],
     Modifications.orderRef st ++ [get8bytes (offset buf 11)],
     Modifications.shares st ++ [get4bytes (offset buf 19)],
     Modifications.matchNumber st ++ [get8bytes (offset buf 23)],
     Modifications.printable st ++ [flagOfChar "N"%byte],
     Modifications.price st ++ [0%float],
     Modifications.newOrderRef st ++ [0]).
Proof.
  intros HE Hw.
  rewrite (mods_executed flagOfChar flagOfBool st buf HE Hw).
  unfold Modifications.columns, Modifications.setMessageCount,
    Modifications.pushVariant, Modifications.pushCommon.
  cbn [snd Modifications.type Modifications.locateCode
       Modifications.trackingNumber Modifications.timestamp
       Modifications.orderRef Modifications.shares Modifications.matchNumber
       Modifications.printable Modifications.price Modifications.newOrderRef].
  now rewrite HE.
Qed.

Lemma executed_frame_columns_witness :
  Modifications.columns
    (snd (Modifications.loadMessagesChar Modifications.init frameExecuted))
  = (["E"%byte], [1], [0], [0], [100], [200], [9001], ["N"%byte],
     [0%float], [0]).
Proof.
  apply (executed_frame_columns (fun c : byte => c) Modifications.charOfBool
           Modifications.init frameExecuted).
  - vm_compute. reflexivity.
  - vm_compute. split; discriminate.
Defined.

(** After a retained ['E'] frame the printable column holds ['N'], which
    is neither the space character nor [false]; this is so whether the
    column holds characters or booleans (where ['N'] is stored as
    [true]). *)
Lemma executed_printable_not_sentinel :
  frameExecuted 0%nat = "E"%byte
  /\ inWindow (Modifications.messageCount (@Modifications.init byte))
              (Modifications.startMsgCount (@Modifications.init byte))
              (Modifications.endMsgCount (@Modifications.init byte))
  /\ ~ (Modifications.printable
          (snd (Modifications.loadMessagesChar Modifications.init frameExecuted))
        = [" "%byte]
        \/ Modifications.printable
          (snd (Modifications.loadMessagesChar Modifications.init frameExecuted))
        = [Modifications.charOfBool false])
  /\ Modifications.printable
       (snd (Modifications.loadMessagesBool Modifications.init frameExecuted))
     <> [false].
Proof.
  split; [reflexivity|]. split; [vm_compute; split; discriminate|]. split.
  - vm_compute. intros [H|H]; discriminate H.
  - vm_compute. discriminate.
Qed.

(** C5.  The code at the failing input, a retained ['E'] frame: the price
    and new-order-reference columns receive their sentinels, but the
    printable column receives ['N'] where the claim has the sentinel (the
    space character or [false]).  The sibling cases ['X'], ['D'] and
    ['U'], which stand under the same comment "empty assigns", push
    [false] to the same column: the zero byte against ['N'] in a column of
    characters, [false] against [true] in a column of booleans. *)
Lemma executed_printable_breaks_siblings :
  let printableChar f :=
    Modifications.printable
      (snd (Modifications.loadMessagesChar Modifications.init f)) in
  let printableBool f :=
    Modifications.printable
      (snd (Modifications.loadMessagesBool Modifications.init f)) in
  printableChar frameExecuted = ["N"%byte]
  /\ printableChar frameCancel = [Modifications.charOfBool false]
  /\ printableChar frameDelete = [Modifications.charOfBool false]
  /\ printableChar frameReplace = [Modifications.charOfBool false]
  /\ printableBool frameExecuted = [true]
  /\ printableBool frameCancel = [false]
  /\ printableBool frameDelete = [false]
  /\ printableBool frameReplace = [false]
  /\ Modifications.price
       (snd (Modifications.loadMessagesChar Modifications.init frameExecuted))
     = [0%float]
  /\ Modifications.newOrderRef
       (snd (Modifications.loadMessagesChar Modifications.init frameExecuted))
     = [0].
Proof. vm_compute. repeat split. Qed.

(** ** Prices *)

Set Warnings "-inexact-float".

(** C10.  For every retained frame that carries a price field (Orders
    ['A'] and ['F'], Trades ['P'] and ['Q'], Modifications ['C'] and
    ['U']), the value pushed to the price column is the 4-byte big-endian
    unsigned field, converted to a double and divided by [10000.0]: the raw
    value 12340000 gives 1234.0 and the raw value 250 gives 0.025 (the
    double nearest to it). *)
Theorem price_is_raw_over_10000 :
  (forall raw,
     priceOfRaw raw
     = PrimFloat.div (PrimFloat.of_uint63 (Uint63.of_Z raw)) 10000%float) /\
  (forall st buf,
     In (buf 0%nat) Orders.validTypes ->
     inWindow (Orders.messageCount st) (Orders.startMsgCount st)
              (Orders.endMsgCount st) ->
     Orders.price (snd (Orders.loadMessages st buf))
     = Orders.price st ++ [priceOfRaw (big_endian 4 (offset buf 32))]) /\
  (forall st buf,
     buf 0%nat = "P"%byte \/ buf 0%nat = "Q"%byte ->
     inWindow (Trades.messageCount st) (Trades.startMsgCount st)
              (Trades.endMsgCount st) ->
     Trades.price (snd (Trades.loadMessages st buf))
     = Trades.price st
       ++ [priceOfRaw
             (big_endian 4
                (offset buf (if Byte.eqb (buf 0%nat) "P"%byte
                             then 32 else 27)))]) /\
  (forall (flag : Type) (flagOfChar : byte -> flag) (flagOfBool : bool -> flag)
          st buf,
     buf 0%nat = "C"%byte \/ buf 0%nat = "U"%byte ->
     inWindow (Modifications.messageCount st) (Modifications.startMsgCount st)
              (Modifications.endMsgCount st) ->
     Modifications.price
       (snd (Modifications.loadMessages flagOfChar flagOfBool st buf))
     = Modifications.price st
       ++ [priceOfRaw
             (big_endian 4
                (offset buf (if Byte.eqb (buf 0%nat) "C"%byte
                             then 32 else 31)))]) /\
  priceOfRaw 12340000 = 1234.0%float /\
  priceOfRaw 250 = 0.025%float.
Proof.
  split; [reflexivity|]. split; [|split; [|split; [|split; reflexivity]]].
  - intros st buf Hin Hw.
    rewrite (orders_retained st buf Hin Hw). cbn [snd Orders.price].
    now rewrite get4bytes_big_endian.
  - intros st buf Hty Hw.
    rewrite trades_price; [|destruct Hty as [-> | ->]; cbn; auto|exact Hw].
    rewrite !get4bytes_big_endian.
    destruct Hty as [-> | ->]; reflexivity.
  - intros flag fc fb st buf Hty Hw.
    rewrite mods_price; [|destruct Hty as [-> | ->]; cbn; auto 6|exact Hw].
    rewrite !get4bytes_big_endian.
    destruct Hty as [-> | ->]; reflexivity.
Qed.

Lemma price_is_raw_over_10000_witness :
  big_endian 4 (offset frameBRK 32) = 12340000
  /\ Orders.price (snd (Orders.loadMessages Orders.init frameBRK))
     = [1234.0%float]
  /\ big_endian 4 (offset frameTrade 32) = 250
  /\ Trades.price (snd (Trades.loadMessages Trades.init frameTrade))
     = [0.025%float]
  /\ Modifications.price
       (snd (Modifications.loadMessagesChar Modifications.init
               frameExecutedPrice))
     = [1234.0%float].
Proof.
  split; [vm_compute; reflexivity|]. split.
  { apply (proj1 (proj2 price_is_raw_over_10000) Orders.init frameBRK).
    - vm_compute. auto.
    - vm_compute. split; discriminate. }
  split; [vm_compute; reflexivity|]. split.
  { apply (proj1 (proj2 (proj2 price_is_raw_over_10000)) Trades.init frameTrade).
    - left. vm_compute. reflexivity.
    - vm_compute. split; discriminate. }
  apply (proj1 (proj2 (proj2 (proj2 price_is_raw_over_10000)))
           byte (fun c : byte => c) Modifications.charOfBool
           Modifications.init frameExecutedPrice).
  - left. vm_compute. reflexivity.
  - vm_compute. split; discriminate.
Defined.

(** ** The orchestrator *)

Section OrchestratorProperties.

Import Orchestrator.

Variable MT : Type.
Variable DataFrame : Type.
Variable msgCountValidMessages : MT -> list Z -> Z.
Variable msgReserve : MT -> Z -> option MT.
Variable msgGetDF : MT -> DataFrame.
Variable countMessages : string -> Z -> list Z.
Variable loadToMessages : string -> MT -> Z -> Z -> Z -> bool -> MT.

Local Abbreviation session :=
  (getMessagesTemplate msgCountValidMessages msgReserve msgGetDF
                       countMessages loadToMessages).


(** What a session does when the normalised window has a non-zero end:
    the whole of it when [reserve] returns, and its start when [reserve]
    throws. *)
Lemma session_specified (msg : MT) (filename : string)
    (startMsgCount endMsgCount bufferSize : Z) (quiet : bool) :
  Z.max startMsgCount endMsgCount <> 0 ->
  let lo := Z.min startMsgCount endMsgCount in
  let hi := Z.max startMsgCount endMsgCount in
  let n := wrap64 (hi - lo + 1) in
  session msg filename startMsgCount endMsgCount bufferSize quiet
  = match msgReserve msg n with
    | Some msg' =>
        (Some (msgGetDF (loadToMessages filename msg' lo hi
                                        bufferSize quiet)),
         say quiet (RcoutNumber n) ++ say quiet (Rcout " messages found")
         ++ [CallReserve n] ++ say quiet (Rcout "[Loading]    ")
         ++ [CallLoadToMessages filename lo hi bufferSize quiet]
         ++ say quiet (Rcout "[Converting] to data.table") ++ [CallGetDF])
    | None =>
        (None,
         say quiet (RcoutNumber n) ++ say quiet (Rcout " messages found")
         ++ [CallReserve n])
    end.
Proof.
  intros Hne lo hi n. subst lo hi n. unfold getMessagesTemplate.
  destruct (Z.ltb_spec endMsgCount startMsgCount) as [Hlt|Hge].
  - rewrite (Z.max_l startMsgCount endMsgCount) in * by lia.
    rewrite (Z.min_r startMsgCount endMsgCount) by lia.
    destruct (Z.eqb_spec startMsgCount 0) as [E|_]; [contradiction|].
    destruct (msgReserve msg _); cbn [app]; now rewrite <- !app_assoc.
  - rewrite (Z.max_r startMsgCount endMsgCount) in * by lia.
    rewrite (Z.min_l startMsgCount endMsgCount) by lia.
    destruct (Z.eqb_spec endMsgCount 0) as [E|_]; [contradiction|].
    destruct (msgReserve msg _); cbn [app]; now rewrite <- !app_assoc.
Qed.

(** What a session does when both bounds are zero: it counts, takes the
    decoder's total as the end of the window and as the size to reserve,
    and, when [reserve] returns, loads the window from 0 to the total and
    converts; when [reserve] throws, it ends there. *)
Lemma session_counting (msg : MT) (filename : string) (bufferSize : Z)
    (quiet : bool) :
  let e := msgCountValidMessages msg (countMessages filename bufferSize) in
  let n := wrap64 (e - 0) in
  session msg filename 0 0 bufferSize quiet
  = match msgReserve msg n with
    | Some msg' =>
        (Some (msgGetDF (loadToMessages filename msg' 0 e
                                        bufferSize quiet)),
         say quiet (Rcout "[Counting]   ")
         ++ [CallCountMessages filename bufferSize]
         ++ say quiet (RcoutNumber n) ++ say quiet (Rcout " messages found")
         ++ [CallReserve n] ++ say quiet (Rcout "[Loading]    ")
         ++ [CallLoadToMessages filename 0 e bufferSize quiet]
         ++ say quiet (Rcout "[Converting] to data.table") ++ [CallGetDF])
    | None =>
        (None,
         say quiet (Rcout "[Counting]   ")
         ++ [CallCountMessages filename bufferSize]
         ++ say quiet (RcoutNumber n) ++ say quiet (Rcout " messages found")
         ++ [CallReserve n])
    end.
Proof.
  intros e n. subst e n. unfold getMessagesTemplate.
  cbn [Z.ltb Z.compare Z.eqb].
  destruct (msgReserve msg _); cbn [app]; now rewrite <- !app_assoc.
Qed.


Lemma ordered_in_say (quiet : bool) (e : event) :
  windowOrdered e -> Forall windowOrdered (say quiet e).
Proof. intros H. destruct quiet; cbn; auto. Qed.

(** The window handed to the loader is well ordered, for the unsigned
    arguments of a session and a count that is unsigned too. *)
Lemma loader_window_ordered (msg : MT) (filename : string)
    (startMsgCount endMsgCount bufferSize : Z) (quiet : bool) :
  (forall m c, 0 <= msgCountValidMessages m c) ->
  0 <= startMsgCount -> 0 <= endMsgCount ->
  Forall windowOrdered
    (snd (session msg filename startMsgCount endMsgCount bufferSize quiet)).
Proof.
  intros Hcount Hs He.
  destruct (Z.eq_dec (Z.max startMsgCount endMsgCount) 0) as [E0|Hne].
  - assert (startMsgCount = 0) by lia. assert (endMsgCount = 0) by lia.
    subst. rewrite session_counting.
    destruct (msgReserve msg _); cbn [snd];
      repeat (apply Forall_app; split);
      try (apply ordered_in_say; exact I); repeat constructor.
    apply Hcount.
  - rewrite session_specified by exact Hne.
    destruct (msgReserve msg _); cbn [snd];
      repeat (apply Forall_app; split);
      try (apply ordered_in_say; exact I); repeat constructor.
    cbn. lia.
Qed.

(** C6.  For every file and every pair of bounds [lo < hi], the session
    run with [startMsgCount = hi] and [endMsgCount = lo] gives the same
    result, and makes the same calls, as the session run with
    [startMsgCount = lo] and [endMsgCount = hi]. *)
Theorem swapped_window_same_result (msg : MT) (filename : string)
    (hi lo bufferSize : Z) (quiet : bool) :
  lo < hi ->
  getMessagesTemplate msgCountValidMessages msgReserve msgGetDF
    countMessages loadToMessages msg filename hi lo bufferSize quiet
  = getMessagesTemplate msgCountValidMessages msgReserve msgGetDF
      countMessages loadToMessages msg filename lo hi bufferSize quiet.
Proof.
  intros Hlt. unfold getMessagesTemplate.
  destruct (Z.ltb_spec lo hi) as [_|Hge]; [|lia].
  destruct (Z.ltb_spec hi lo) as [Hgt|_]; [lia|].
  reflexivity.
Qed.


End OrchestratorProperties.

Lemma swapped_window_same_result_witness :
  getOrders "itch.bin" 2 1 100 true = getOrders "itch.bin" 1 2 100 true.
Proof.
  apply (swapped_window_same_result Orders.state _
           (fun _ => countValidMessages exampleTypePositions)
           (Orders.reserve exampleAllocates) Orders.columns
           exampleCountMessages exampleLoadToMessages
           Orders.init "itch.bin" 2 1 100 true).
  lia.
Defined.



(** The three sessions over the example file: an inverted window with the
    sentinel as its end, the default window, and a window of one row. *)
Example sessions_example :
  getOrders "itch.bin" 2 0 100 true
  = (Some
       (["A"; "A"; "F"]%byte, [1; 1; 7], [0; 0; 0], [0; 0; 34200000000000],
        [100; 101; 102], [true; false; true], [500; 20; 300],
        ["AAPL"; "BRKA"; "MSFT"]%string,
        [150.0; 1234.0; 0.025]%float, [""; ""; "GSCO"]%string),
     [Orchestrator.CallReserve 3;
      Orchestrator.CallLoadToMessages "itch.bin" 0 2 100 true;
      Orchestrator.CallGetDF])
  /\ snd (getOrders "itch.bin" 0 0 100 true)
     = [Orchestrator.CallCountMessages "itch.bin" 100;
        Orchestrator.CallReserve 3;
        Orchestrator.CallLoadToMessages "itch.bin" 0 3 100 true;
        Orchestrator.CallGetDF]
  /\ fst (getOrders "itch.bin" 1 1 100 true)
     = Some
         (["A"%byte], [1], [0], [0], [101], [false], [20], ["BRKA"%string],
          [1234.0%float], [""%string]).
Proof. vm_compute. repeat split. Qed.

(** The add order of the specification's scenario, decoded. *)
Example orders_scenario :
  Orders.loadMessages Orders.init frameAAPL
  = (true,
     Orders.mk 1 0 defaultEndMsgCount
       ["A"%byte] [1] [0] [0] [100] [true] [500] ["AAPL"%string]
       [150.0%float] [""%string]).
Proof. vm_compute. reflexivity. Qed.

(** * Further properties *)

(** ** The field codec: ranges and the bytes that matter *)

Section CodecBytes.

Lemma uchar_inj (a b : byte) : uchar a = uchar b -> a = b.
Proof.
  unfold uchar. intros H. apply N2Z.inj in H.
  pose proof (Byte.of_to_N a) as Ha. pose proof (Byte.of_to_N b) as Hb.
  rewrite H in Ha. congruence.
Qed.

(** Two buffers have the same big-endian reading of [n] bytes exactly when
    they agree on these [n] bytes. *)
Lemma big_endian_agree (n : nat) : forall buf buf',
  big_endian n buf = big_endian n buf'
  <-> (forall i, (i < n)%nat -> buf i = buf' i).
Proof.
  induction n as [|n IH]; intros buf buf'.
  - split; [intros _ i Hi; lia | reflexivity].
  - rewrite !big_endian_snoc. split.
    + intros H.
      pose proof (uchar_range (buf n)). pose proof (uchar_range (buf' n)).
      assert (Hhi : big_endian n buf = big_endian n buf') by lia.
      assert (Hlo : uchar (buf n) = uchar (buf' n)) by lia.
      intros i Hi. destruct (Nat.eq_dec i n) as [->|Hne].
      * now apply uchar_inj.
      * apply (proj1 (IH buf buf') Hhi). lia.
    + intros H.
      rewrite (proj2 (IH buf buf')) by (intros i Hi; apply H; lia).
      rewrite (H n) by lia. reflexivity.
Qed.

Lemma get2bytes_range (buf : buffer) : 0 <= get2bytes buf < 2 ^ 16.
Proof.
  rewrite get2bytes_big_endian. pose proof (big_endian_range 2 buf) as H.
  change (256 ^ Z.of_nat 2) with (2 ^ 16) in H. exact H.
Qed.

Lemma get4bytes_range (buf : buffer) : 0 <= get4bytes buf < 2 ^ 32.
Proof.
  rewrite get4bytes_big_endian. pose proof (big_endian_range 4 buf) as H.
  change (256 ^ Z.of_nat 4) with (2 ^ 32) in H. exact H.
Qed.

Lemma get6bytes_range (buf : buffer) : 0 <= get6bytes buf < 2 ^ 48.
Proof.
  rewrite get6bytes_big_endian. pose proof (big_endian_range 6 buf) as H.
  change (256 ^ Z.of_nat 6) with (2 ^ 48) in H. exact H.
Qed.

Lemma get8bytes_range (buf : buffer) : 0 <= get8bytes buf < 2 ^ 64.
Proof.
  rewrite get8bytes_big_endian. pose proof (big_endian_range 8 buf) as H.
  change (256 ^ Z.of_nat 8) with (2 ^ 64) in H. exact H.
Qed.

End CodecBytes.

(** X1.  The values the codec returns fit the width of the field:
    [get2bytes] is below [2^16], [get4bytes] below [2^32], [get6bytes]
    below [2^48] and [get8bytes] below [2^64], and none is negative. *)
Theorem field_codec_ranges (buf : buffer) :
  0 <= get2bytes buf < 2 ^ 16 /\
  0 <= get4bytes buf < 2 ^ 32 /\
  0 <= get6bytes buf < 2 ^ 48 /\
  0 <= get8bytes buf < 2 ^ 64.
Proof.
  split; [apply get2bytes_range|].
  split; [apply get4bytes_range|].
  split; [apply get6bytes_range | apply get8bytes_range].
Qed.

(** X2.  Each codec function depends on exactly the bytes of its field:
    two buffers decode to the same value if and only if they agree on the
    first 2, 4, 6 or 8 bytes.  In particular the two bytes that [get6bytes]
    loads behind its six never reach the result, and different fields never
    decode to the same number. *)
Theorem field_codec_agree (buf buf' : buffer) :
  (get2bytes buf = get2bytes buf'
   <-> forall i, (i < 2)%nat -> buf i = buf' i) /\
  (get4bytes buf = get4bytes buf'
   <-> forall i, (i < 4)%nat -> buf i = buf' i) /\
  (get6bytes buf = get6bytes buf'
   <-> forall i, (i < 6)%nat -> buf i = buf' i) /\
  (get8bytes buf = get8bytes buf'
   <-> forall i, (i < 8)%nat -> buf i = buf' i).
Proof.
  rewrite !get2bytes_big_endian, !get4bytes_big_endian,
    !get6bytes_big_endian, !get8bytes_big_endian.
  repeat split; apply big_endian_agree.
Qed.

(** Two buffers that differ only behind the sixth byte. *)
Example get6bytes_ignores_tail :
  get6bytes (buffer_of_list [x00; x00; x00; x00; x01; x02; xff; xff])
  = get6bytes (buffer_of_list [x00; x00; x00; x00; x01; x02; x00; x00]).
Proof. vm_compute. reflexivity. Qed.

(** ** Counting the valid messages *)

Section CountValid.

Lemma countValidMessages_fold (count : list Z) (ps : list nat) : forall acc,
  0 <= acc < 2 ^ 64 ->
  fold_left (fun total typePos => wrap64 (total + nth typePos count 0)) ps acc
  = (acc + fold_right Z.add 0 (map (fun p => nth p count 0) ps)) mod 2 ^ 64.
Proof.
  induction ps as [|p ps IH]; intros acc Hacc; cbn [fold_left map fold_right].
  - rewrite Z.add_0_r. symmetry. now apply Z.mod_small.
  - rewrite IH by (unfold wrap64; apply Z.mod_pos_bound; lia).
    unfold wrap64. rewrite Z.add_mod_idemp_l by lia.
    f_equal. lia.
Qed.

End CountValid.

(** X3.  [countValidMessages] adds up the counts at the decoder's
    [typePositions], modulo [2^64]: for positions inside the count vector
    the result is the sum of [count[typePos]] reduced to 64 bits, and it is
    the exact sum when the counts are not negative and the sum is below
    [2^64].  A position listed twice is counted twice. *)
Theorem countValidMessages_sum (typePositions : list nat) (count : list Z) :
  Forall (fun p => (p < List.length count)%nat) typePositions ->
  let total :=
    fold_right Z.add 0 (map (fun p => nth p count 0) typePositions) in
  countValidMessages typePositions count = total mod 2 ^ 64
  /\ 0 <= countValidMessages typePositions count < 2 ^ 64
  /\ (Forall (fun c => 0 <= c) count -> total < 2 ^ 64 ->
      countValidMessages typePositions count = total).
Proof.
  intros _ total. subst total. unfold countValidMessages.
  rewrite countValidMessages_fold by lia. cbn [Z.add].
  split; [reflexivity|]. split; [apply Z.mod_pos_bound; lia|].
  intros Hpos Hlt. apply Z.mod_small. split; [|exact Hlt].
  clear Hlt. induction typePositions as [|p ps IH]; cbn; [lia|].
  assert (0 <= nth p count 0).
  { destruct (Nat.lt_ge_cases p (List.length count)) as [Hp|Hp].
    - rewrite Forall_forall in Hpos. apply Hpos. now apply nth_In.
    - rewrite nth_overflow by exact Hp. lia. }
  lia.
Qed.

Lemma countValidMessages_sum_witness :
  countValidMessages [0%nat; 2%nat] [3; 10; 4] = 7.
Proof.
  apply (proj2 (proj2 (countValidMessages_sum [0%nat; 2%nat] [3; 10; 4]
           ltac:(repeat constructor)))).
  - repeat constructor; discriminate.
  - reflexivity.
Defined.

(** ** The text columns of Orders *)

Section TextColumns.

Lemma removeSpaces_hasSpace (s : string) : hasSpace (removeSpaces s) = false.
Proof.
  induction s as [|c s IH]; [reflexivity|]. cbn [removeSpaces].
  destruct (Ascii.eqb c " ") eqn:E; [exact IH|].
  cbn [hasSpace]. now rewrite E, IH.
Qed.

Lemma removeSpaces_length (s : string) :
  (String.length (removeSpaces s) <= String.length s)%nat.
Proof.
  induction s as [|c s IH]; [reflexivity|]. cbn [removeSpaces].
  destruct (Ascii.eqb c " "); cbn [String.length]; lia.
Qed.

Lemma string_of_list_ascii_length (l : list ascii) :
  String.length (string_of_list_ascii l) = List.length l.
Proof. induction l as [|c l IH]; cbn; [reflexivity | now rewrite IH]. Qed.

Lemma fieldString_length (buf : buffer) (off n : nat) :
  String.length (fieldString buf off n) = n.
Proof.
  unfold fieldString.
  now rewrite string_of_list_ascii_length, length_map, length_seq.
Qed.

End TextColumns.

(** X4.  For every retained Orders frame, the symbol pushed to [stock]
    holds no space and at most 8 characters, and the identifier pushed to
    [mpid] holds no space and at most 4 characters: it is the empty string
    for type ['A'] and the 4-byte field at offset 36 without its spaces for
    type ['F']. *)
Theorem orders_text_columns (st : Orders.state) (buf : buffer) :
  In (buf 0%nat) Orders.validTypes ->
  inWindow (Orders.messageCount st) (Orders.startMsgCount st)
           (Orders.endMsgCount st) ->
  exists symbol mp,
    Orders.stock (snd (Orders.loadMessages st buf)) = Orders.stock st ++ [symbol]
    /\ Orders.mpid (snd (Orders.loadMessages st buf)) = Orders.mpid st ++ [mp]
    /\ hasSpace symbol = false /\ (String.length symbol <= 8)%nat
    /\ hasSpace mp = false /\ (String.length mp <= 4)%nat
    /\ (buf 0%nat = "A"%byte -> mp = EmptyString)
    /\ (buf 0%nat = "F"%byte -> mp = removeSpaces (fieldString buf 36 4)).
Proof.
  intros Hin Hw. rewrite (orders_retained st buf Hin Hw).
  cbn [snd Orders.stock Orders.mpid].
  eexists. eexists. split; [reflexivity|]. split; [reflexivity|].
  rewrite !copyNonWhite_removeSpaces.
  split; [apply removeSpaces_hasSpace|].
  split.
  { pose proof (removeSpaces_length (fieldString buf 24 8)) as H.
    now rewrite fieldString_length in H. }
  destruct (Byte.eqb (buf 0%nat) "F"%byte) eqn:EF.
  - split; [apply removeSpaces_hasSpace|]. split.
    { pose proof (removeSpaces_length (fieldString buf 36 4)) as H.
      now rewrite fieldString_length in H. }
    split; [|reflexivity].
    intros HA. rewrite HA in EF. vm_compute in EF. discriminate EF.
  - split; [reflexivity|]. split; [cbn; lia|]. split; [reflexivity|].
    intros HF. rewrite HF in EF. vm_compute in EF. discriminate EF.
Qed.

Lemma orders_text_columns_witness :
  exists symbol mp,
    Orders.stock (snd (Orders.loadMessages Orders.init frameMSFT))
    = Orders.stock Orders.init ++ [symbol]
    /\ Orders.mpid (snd (Orders.loadMessages Orders.init frameMSFT))
       = Orders.mpid Orders.init ++ [mp]
    /\ hasSpace symbol = false /\ (String.length symbol <= 8)%nat
    /\ hasSpace mp = false /\ (String.length mp <= 4)%nat
    /\ (frameMSFT 0%nat = "A"%byte -> mp = EmptyString)
    /\ (frameMSFT 0%nat = "F"%byte
        -> mp = removeSpaces (fieldString frameMSFT 36 4)).
Proof.
  apply (orders_text_columns Orders.init frameMSFT).
  - vm_compute. auto.
  - vm_compute. split; discriminate.
Defined.

(** ** The rows of Trades and Modifications, type by type *)

(** Evaluates [loadMessages] on a retained frame whose type byte is fixed
    by the hypothesis [H]. *)
Ltac retained_row V buf H :=
  let Hv := fresh "Hv" in
  assert (Hv : matchesValidType V buf = true)
    by (apply matchesValidType_In; rewrite H; cbn; auto 6);
  split_guards V; try solve [lia | congruence];
  switch_on buf; try type_clash;
  reflexivity.

(** X5.  What a retained Trades frame pushes behind the four common
    fields.  ['P']: order reference, buy flag, shares, symbol, price and
    match number from offsets 11, 19, 20, 24, 32 and 36, cross type [' '].
    ['Q']: shares, symbol, price, match number and cross type from offsets
    11, 19, 27, 31 and 39, order reference 0 and buy flag [false].  ['B']:
    the match number from offset 11 and nothing else: order reference 0,
    buy flag [false], shares 0, empty symbol, price 0.0, cross type [' ']. *)
Theorem trades_rows_by_type (st : Trades.state) (buf : buffer) :
  inWindow (Trades.messageCount st) (Trades.startMsgCount st)
           (Trades.endMsgCount st) ->
  let st' := snd (Trades.loadMessages st buf) in
  let common :=
    (Trades.type st ++ [buf 0%nat],
     Trades.locateCode st ++ [get2bytes (offset buf 1)],
     Trades.trackingNumber st ++ [get2bytes (offset buf 3)],
     Trades.timestamp st ++ [get6bytes (offset buf 5)]) in
  (buf 0%nat = "P"%byte ->
   Trades.columns st'
   = (common,
      Trades.orderRef st ++ [get8bytes (offset buf 11)],
      Trades.buy st ++ [Byte.eqb (buf 19%nat) "B"%byte],
      Trades.shares st ++ [get4bytes (offset buf 20)],
      Trades.stock st ++ [copyNonWhite buf 24 8 EmptyString],
      Trades.price st ++ [priceOfRaw (get4bytes (offset buf 32))],
      Trades.matchNumber st ++ [get8bytes (offset buf 36)],
      Trades.crossType st ++ [" "%byte])) /\
  (buf 0%nat = "Q"%byte ->
   Trades.columns st'
   = (common,
      Trades.orderRef st ++ [0],
      Trades.buy st ++ [false],
      Trades.shares st ++ [get4bytes (offset buf 11)],
      Trades.stock st ++ [copyNonWhite buf 19 8 EmptyString],
      Trades.price st ++ [priceOfRaw (get4bytes (offset buf 27))],
      Trades.matchNumber st ++ [get8bytes (offset buf 31)],
      Trades.crossType st ++ [buf 39%nat])) /\
  (buf 0%nat = "B"%byte ->
   Trades.columns st'
   = (common,
      Trades.orderRef st ++ [0],
      Trades.buy st ++ [false],
      Trades.shares st ++ [0],
      Trades.stock st ++ [EmptyString],
      Trades.price st ++ [0%float],
      Trades.matchNumber st ++ [get8bytes (offset buf 11)],
      Trades.crossType st ++ [" "%byte])).
Proof.
  intros [Hs He] st' common. subst st' common.
  unfold Trades.loadMessages, Trades.columns.
  split; [|split]; intros H; retained_row Trades.validTypes buf H.
Qed.

Lemma trades_rows_by_type_witness :
  Trades.columns (snd (Trades.loadMessages Trades.init frameCross))
  = (["Q"%byte], [3], [0], [34200000000000], [0], [false], [1000],
     ["MSFT"%string], [0.025%float], [78], ["O"%byte])
  /\ Trades.columns (snd (Trades.loadMessages Trades.init frameBroken))
     = (["B"%byte], [3], [0], [34200000000001], [0], [false], [0],
        [EmptyString], [0%float], [78], [" "%byte]).
Proof.
  split.
  - apply (proj1 (proj2 (trades_rows_by_type Trades.init frameCross
             ltac:(vm_compute; split; discriminate)))).
    vm_compute. reflexivity.
  - apply (proj2 (proj2 (trades_rows_by_type Trades.init frameBroken
             ltac:(vm_compute; split; discriminate)))).
    vm_compute. reflexivity.
Defined.

(** X6.  What a retained Modifications frame of type ['C'], ['X'], ['D']
    or ['U'] pushes behind the five common fields.  ['C']: shares, match
    number, printable byte and price from offsets 19, 23, 31 and 32.
    ['X']: the cancelled shares from offset 19.  ['D']: nothing.  ['U']:
    the new order reference, shares and price from offsets 19, 27 and 31.
    Every other column receives 0, 0.0 or [false]. *)
Theorem modifications_rows_by_type {flag : Type} (flagOfChar : byte -> flag)
    (flagOfBool : bool -> flag) (st : Modifications.state) (buf : buffer) :
  inWindow (Modifications.messageCount st) (Modifications.startMsgCount st)
           (Modifications.endMsgCount st) ->
  let st' := snd (Modifications.loadMessages flagOfChar flagOfBool st buf) in
  let common :=
    (Modifications.type st ++ [buf 0%nat],
     Modifications.locateCode st ++ [get2bytes (offset buf 1)],
     Modifications.trackingNumber st ++ [get2bytes (offset buf 3)],
     Modifications.timestamp st ++ [get6bytes (offset buf 5)],
     Modifications.orderRef st ++ [get8bytes (offset buf 11)]) in
  (buf 0%nat = "C"%byte ->
   Modifications.columns st'
   = (common,
      Modifications.shares st ++ [get4bytes (offset buf 19)],
      Modifications.matchNumber st ++ [get8bytes (offset buf 23)],
      Modifications.printable st ++ [flagOfChar (buf 31%nat)],
      Modifications.price st ++ [priceOfRaw (get4bytes (offset buf 32))],
      Modifications.newOrderRef st ++ [0])) /\
  (buf 0%nat = "X"%byte ->
   Modifications.columns st'
   = (common,
      Modifications.shares st ++ [get4bytes (offset buf 19)],
      Modifications.matchNumber st ++ [0],
      Modifications.printable st ++ [flagOfBool false],
      Modifications.price st ++ [0%float],
      Modifications.newOrderRef st ++ [0])) /\
  (buf 0%nat = "D"%byte ->
   Modifications.columns st'
   = (common,
      Modifications.shares st ++ [0],
      Modifications.matchNumber st ++ [0],
      Modifications.printable st ++ [flagOfBool false],
      Modifications.price st ++ [0%float],
      Modifications.newOrderRef st ++ [0])) /\
  (buf 0%nat = "U"%byte ->
   Modifications.columns st'
   = (common,
      Modifications.shares st ++ [get4bytes (offset buf 27)],
      Modifications.matchNumber st ++ [0],
      Modifications.printable st ++ [flagOfBool false],
      Modifications.price st ++ [priceOfRaw (get4bytes (offset buf 31))],
      Modifications.newOrderRef st ++ [get8bytes (offset buf 19)])).
Proof.
  intros [Hs He] st' common. subst st' common.
  unfold Modifications.loadMessages, Modifications.columns.
  split; [|split; [|split]]; intros H;
    retained_row Modifications.validTypes buf H.
Qed.

Lemma modifications_rows_by_type_witness :
  Modifications.columns
    (snd (Modifications.loadMessagesChar Modifications.init frameReplace))
  = (["U"%byte], [1], [0], [7], [101], [20], [0], [x00], [1234.0%float],
     [103])
  /\ Modifications.columns
       (snd (Modifications.loadMessagesChar Modifications.init frameCancel))
     = (["X"%byte], [1], [0], [5], [100], [50], [0], [x00], [0%float], [0]).
Proof.
  split.
  - apply (proj2 (proj2 (proj2
             (modifications_rows_by_type (fun c : byte => c)
                Modifications.charOfBool Modifications.init frameReplace
                ltac:(vm_compute; split; discriminate))))).
    vm_compute. reflexivity.
  - apply (proj1 (proj2
             (modifications_rows_by_type (fun c : byte => c)
                Modifications.charOfBool Modifications.init frameCancel
                ltac:(vm_compute; split; discriminate)))).
    vm_compute. reflexivity.
Defined.

(** ** Invariants of the header columns *)

Section RunInvariant.

Context {St : Type} (D : MessageType St).
Variable Inv : St -> Prop.

Hypothesis inv_init : Inv mtInit.
Hypothesis inv_setBoundaries : forall st s e, Inv st -> Inv (mtSetBoundaries st s e).
Hypothesis inv_reserve : forall allocates st n st',
  mtReserve allocates st n = Some st' -> Inv st -> Inv st'.
Hypothesis inv_load : forall st buf, Inv st -> Inv (snd (mtLoadMessages st buf)).

Lemma run_invariant (calls : list call) : forall st,
  Inv st -> Inv (run D st calls).
Proof.
  unfold run. induction calls as [|c calls IH]; intros st H; cbn [fold_left].
  - exact H.
  - apply IH. destruct c as [s e|n granted|buf]; cbn [perform]; auto.
    destruct (mtReserve (fun _ => granted) st n) as [st'|] eqn:E;
      [|exact H].
    exact (inv_reserve _ _ _ _ E H).
Qed.

Lemma run_from_init_invariant (calls : list call) : Inv (run D mtInit calls).
Proof. apply run_invariant, inv_init. Qed.

End RunInvariant.

Ltac header_range :=
  match goal with
  | |- _ <= get2bytes _ < _ => exact (get2bytes_range _)
  | |- _ <= get6bytes _ < _ => exact (get6bytes_range _)
  end.

Section HeaderColumns.

Lemma Forall_snoc {A : Type} (P : A -> Prop) (l : list A) (x : A) :
  Forall P l -> P x -> Forall P (l ++ [x]).
Proof. intros Hl Hx. apply Forall_app. split; [exact Hl | now constructor]. Qed.

(** Either the frame is retained, or the call leaves every column alone:
    the three ways a call does not retain. *)
Lemma not_retained_cases (V : list byte) (buf : buffer) (mc s e : Z) :
  ~ In (buf 0%nat) V
  \/ (In (buf 0%nat) V /\ mc < s)
  \/ (In (buf 0%nat) V /\ s <= mc /\ e < mc)
  \/ (In (buf 0%nat) V /\ inWindow mc s e).
Proof.
  unfold inWindow.
  destruct (in_dec Byte.byte_eq_dec (buf 0%nat) V) as [Hin|Hn]; [|now left].
  right. destruct (Z.lt_ge_cases mc s); [now left|].
  right. destruct (Z.lt_ge_cases e mc); [left|right]; repeat split; auto; lia.
Qed.

Lemma orders_header_kept (st : Orders.state) (buf : buffer) :
  onlyTypes Orders.validTypes (Orders.type st)
  /\ fitsBits 16 (Orders.locateCode st)
  /\ fitsBits 16 (Orders.trackingNumber st)
  /\ fitsBits 48 (Orders.timestamp st) ->
  let st' := snd (Orders.loadMessages st buf) in
  onlyTypes Orders.validTypes (Orders.type st')
  /\ fitsBits 16 (Orders.locateCode st')
  /\ fitsBits 16 (Orders.trackingNumber st')
  /\ fitsBits 48 (Orders.timestamp st').
Proof.
  intros (Ht & Hl & Hk & Hs) st'. subst st'.
  destruct (not_retained_cases Orders.validTypes buf
              (Orders.messageCount st) (Orders.startMsgCount st)
              (Orders.endMsgCount st))
    as [Hn | [[Hin Hb] | [(Hin & Ha & Hb) | [Hin Hw]]]].
  - rewrite orders_unrecognised by exact Hn. auto.
  - rewrite orders_before_window by assumption. auto.
  - rewrite orders_after_window by assumption. auto.
  - rewrite orders_retained by assumption.
    cbn [snd Orders.type Orders.locateCode Orders.trackingNumber
         Orders.timestamp].
    repeat split; apply Forall_snoc; try assumption; header_range.
Qed.

Lemma trades_header_kept (st : Trades.state) (buf : buffer) :
  onlyTypes Trades.validTypes (Trades.type st)
  /\ fitsBits 16 (Trades.locateCode st)
  /\ fitsBits 16 (Trades.trackingNumber st)
  /\ fitsBits 48 (Trades.timestamp st) ->
  let st' := snd (Trades.loadMessages st buf) in
  onlyTypes Trades.validTypes (Trades.type st')
  /\ fitsBits 16 (Trades.locateCode st')
  /\ fitsBits 16 (Trades.trackingNumber st')
  /\ fitsBits 48 (Trades.timestamp st').
Proof.
  intros (Ht & Hl & Hk & Hs) st'. subst st'.
  destruct (not_retained_cases Trades.validTypes buf
              (Trades.messageCount st) (Trades.startMsgCount st)
              (Trades.endMsgCount st))
    as [Hn | [[Hin Hb] | [(Hin & Ha & Hb) | [Hin Hw]]]].
  - rewrite trades_unrecognised by exact Hn. auto.
  - rewrite trades_before_window by assumption. auto.
  - rewrite trades_after_window by assumption. auto.
  - destruct (trades_retained st buf Hin Hw)
      as (o & b & s & k & p & m & c & ->).
    cbn [snd Trades.setMessageCount Trades.pushVariant Trades.pushCommon
         Trades.type Trades.locateCode Trades.trackingNumber
         Trades.timestamp].
    repeat split; apply Forall_snoc; try assumption; header_range.
Qed.

Lemma mods_header_kept {flag : Type} (fc : byte -> flag) (fb : bool -> flag)
    (st : Modifications.state) (buf : buffer) :
  onlyTypes Modifications.validTypes (Modifications.type st)
  /\ fitsBits 16 (Modifications.locateCode st)
  /\ fitsBits 16 (Modifications.trackingNumber st)
  /\ fitsBits 48 (Modifications.timestamp st) ->
  let st' := snd (Modifications.loadMessages fc fb st buf) in
  onlyTypes Modifications.validTypes (Modifications.type st')
  /\ fitsBits 16 (Modifications.locateCode st')
  /\ fitsBits 16 (Modifications.trackingNumber st')
  /\ fitsBits 48 (Modifications.timestamp st').
Proof.
  intros (Ht & Hl & Hk & Hs) st'. subst st'.
  destruct (not_retained_cases Modifications.validTypes buf
              (Modifications.messageCount st) (Modifications.startMsgCount st)
              (Modifications.endMsgCount st))
    as [Hn | [[Hin Hb] | [(Hin & Ha & Hb) | [Hin Hw]]]].
  - rewrite mods_unrecognised by exact Hn. auto.
  - rewrite mods_before_window by assumption. auto.
  - rewrite mods_after_window by assumption. auto.
  - destruct (mods_retained fc fb st buf Hin Hw) as (s & m & pr & p & n & ->).
    cbn [snd Modifications.setMessageCount Modifications.pushVariant
         Modifications.pushCommon Modifications.type
         Modifications.locateCode Modifications.trackingNumber
         Modifications.timestamp].
    repeat split; apply Forall_snoc; try assumption; header_range.
Qed.

End HeaderColumns.

(** X7.  Whatever calls are made on a fresh decoder, its type column only
    ever holds type codes of its own [validTypes], the locate codes and
    tracking numbers fit 16 bits and the timestamps fit 48 bits. *)
Theorem header_columns_invariant :
  (forall calls,
     let st := run OrdersType Orders.init calls in
     onlyTypes Orders.validTypes (Orders.type st)
     /\ fitsBits 16 (Orders.locateCode st)
     /\ fitsBits 16 (Orders.trackingNumber st)
     /\ fitsBits 48 (Orders.timestamp st)) /\
  (forall calls,
     let st := run TradesType Trades.init calls in
     onlyTypes Trades.validTypes (Trades.type st)
     /\ fitsBits 16 (Trades.locateCode st)
     /\ fitsBits 16 (Trades.trackingNumber st)
     /\ fitsBits 48 (Trades.timestamp st)) /\
  (forall (flag : Type) (flagOfChar : byte -> flag) (flagOfBool : bool -> flag)
          calls,
     let st := run (ModificationsType flagOfChar flagOfBool)
                   Modifications.init calls in
     onlyTypes Modifications.validTypes (Modifications.type st)
     /\ fitsBits 16 (Modifications.locateCode st)
     /\ fitsBits 16 (Modifications.trackingNumber st)
     /\ fitsBits 48 (Modifications.timestamp st)).
Proof.
  split; [|split].
  - intros calls.
    apply (run_from_init_invariant OrdersType
             (fun st => onlyTypes Orders.validTypes (Orders.type st)
                        /\ fitsBits 16 (Orders.locateCode st)
                        /\ fitsBits 16 (Orders.trackingNumber st)
                        /\ fitsBits 48 (Orders.timestamp st))).
    + repeat split; constructor.
    + intros st s e H. exact H.
    + intros a st n st' E H. now rewrite (orders_reserve_same _ _ _ _ E).
    + intros st buf H. now apply orders_header_kept.
  - intros calls.
    apply (run_from_init_invariant TradesType
             (fun st => onlyTypes Trades.validTypes (Trades.type st)
                        /\ fitsBits 16 (Trades.locateCode st)
                        /\ fitsBits 16 (Trades.trackingNumber st)
                        /\ fitsBits 48 (Trades.timestamp st))).
    + repeat split; constructor.
    + intros st s e H. exact H.
    + intros a st n st' E H. now rewrite (trades_reserve_same _ _ _ _ E).
    + intros st buf H. now apply trades_header_kept.
  - intros flag fc fb calls.
    apply (run_from_init_invariant (ModificationsType fc fb)
             (fun st => onlyTypes Modifications.validTypes (Modifications.type st)
                        /\ fitsBits 16 (Modifications.locateCode st)
                        /\ fitsBits 16 (Modifications.trackingNumber st)
                        /\ fitsBits 48 (Modifications.timestamp st))).
    + repeat split; constructor.
    + intros st s e H. exact H.
    + intros a st n st' E H. now rewrite (mods_reserve_same _ _ _ _ E).
    + intros st buf H. now apply (mods_header_kept fc fb).
Qed.

(** ** The window over a whole file *)

Section WindowRows.

Context {A : Type}.

Lemma windowRows_past (l : list A) : forall m s e,
  e < m -> windowRows m s e l = [].
Proof.
  induction l as [|x r IH]; intros m s e H; cbn [windowRows]; [reflexivity|].
  replace (m <=? e) with false by (symmetry; apply Z.leb_gt; lia).
  rewrite andb_false_r. apply IH. lia.
Qed.

(** The rows of a window are a slice of the list. *)
Lemma windowRows_slice (l : list A) : forall m s e,
  windowRows m s e l
  = skipn (Z.to_nat (s - m)) (firstn (Z.to_nat (e + 1 - m)) l).
Proof.
  induction l as [|x r IH]; intros m s e; cbn [windowRows].
  - now rewrite firstn_nil, skipn_nil.
  - rewrite IH.
    destruct (Z.leb_spec s m) as [Hs|Hs]; destruct (Z.leb_spec m e) as [He|He];
      cbn [andb].
    + replace (Z.to_nat (e + 1 - m)) with (S (Z.to_nat (e + 1 - (m + 1))))
        by lia.
      replace (Z.to_nat (s - m)) with 0%nat by lia.
      replace (Z.to_nat (s - (m + 1))) with 0%nat by lia.
      reflexivity.
    + replace (Z.to_nat (e + 1 - m)) with 0%nat by lia.
      replace (Z.to_nat (e + 1 - (m + 1))) with 0%nat by lia.
      cbn [firstn]. now rewrite !skipn_nil.
    + replace (Z.to_nat (e + 1 - m)) with (S (Z.to_nat (e + 1 - (m + 1))))
        by lia.
      replace (Z.to_nat (s - m)) with (S (Z.to_nat (s - (m + 1)))) by lia.
      reflexivity.
    + replace (Z.to_nat (e + 1 - m)) with 0%nat by lia.
      replace (Z.to_nat (e + 1 - (m + 1))) with 0%nat by lia.
      cbn [firstn]. now rewrite !skipn_nil.
Qed.

Lemma windowRows_from_zero (l : list A) (s e : Z) :
  windowRows 0 s e l = slice s e l.
Proof.
  unfold slice. rewrite windowRows_slice.
  now rewrite !Z.sub_0_r.
Qed.

Lemma slice_all (l : list A) (e : Z) :
  Z.of_nat (List.length l) <= e + 1 -> slice 0 e l = l.
Proof.
  intros H. unfold slice. cbn [Z.to_nat skipn].
  apply firstn_all2. lia.
Qed.

Lemma slice_length (l : list A) (s e : Z) :
  0 <= s -> s <= e ->
  Z.of_nat (List.length (slice s e l))
  = Z.max 0 (Z.min (Z.of_nat (List.length l)) (e + 1) - s).
Proof.
  intros Hs He. unfold slice. rewrite length_skipn, length_firstn. lia.
Qed.

End WindowRows.

Lemma slice_map {A B : Type} (f : A -> B) (s e : Z) (l : list A) :
  slice s e (map f l) = map f (slice s e l).
Proof. unfold slice. now rewrite firstn_map, skipn_map. Qed.

Section RecognisedFrames.

Variable V : list byte.

Lemma recognised_in (f : buffer) (fs : list buffer) :
  In (f 0%nat) V -> recognised V (f :: fs) = f :: recognised V fs.
Proof.
  intros H. apply matchesValidType_In in H.
  unfold recognised. cbn [filter]. now rewrite H.
Qed.

Lemma recognised_out (f : buffer) (fs : list buffer) :
  ~ In (f 0%nat) V -> recognised V (f :: fs) = recognised V fs.
Proof.
  intros H. apply matchesValidType_not_In in H.
  unfold recognised. cbn [filter]. now rewrite H.
Qed.

End RecognisedFrames.

Section WindowRun.

Context {St R : Type} (D : MessageType St).
Variable V : list byte.
Variables mc start stop : St -> Z.
Variable obs : St -> list R.
Variable row : buffer -> R.

Local Abbreviation next st buf := (snd (mtLoadMessages st buf)).

Hypothesis bounds_kept : forall st buf,
  start (next st buf) = start st /\ stop (next st buf) = stop st.
Hypothesis unrecognised : forall st buf,
  ~ In (buf 0%nat) V ->
  mc (next st buf) = mc st /\ obs (next st buf) = obs st.
Hypothesis before : forall st buf,
  In (buf 0%nat) V -> mc st < start st ->
  mc (next st buf) = incr64 (mc st) /\ obs (next st buf) = obs st.
Hypothesis after : forall st buf,
  In (buf 0%nat) V -> start st <= mc st -> stop st < mc st ->
  mc (next st buf) = mc st /\ obs (next st buf) = obs st.
Hypothesis retained : forall st buf,
  In (buf 0%nat) V -> inWindow (mc st) (start st) (stop st) ->
  mc (next st buf) = incr64 (mc st)
  /\ obs (next st buf) = obs st ++ [row buf].

Lemma window_run (frames : list buffer) : forall st,
  start st <= stop st ->
  0 <= mc st ->
  mc st + Z.of_nat (List.length (recognised V frames)) < 2 ^ 64 ->
  let st' := run D st (map LoadMessages frames) in
  start st' = start st /\ stop st' = stop st
  /\ obs st'
     = obs st
       ++ map row (windowRows (mc st) (start st) (stop st)
                              (recognised V frames))
  /\ mc st'
     = (if mc st <=? stop st
        then Z.min (mc st + Z.of_nat (List.length (recognised V frames)))
                   (stop st + 1)
        else mc st).
Proof.
  induction frames as [|f fs IH]; intros st Hord Hmc Hno st'; subst st'.
  - cbn. rewrite app_nil_r. repeat split.
    destruct (Z.leb_spec (mc st) (stop st)); lia.
  - change (run D st (map LoadMessages (f :: fs)))
      with (run D (next st f) (map LoadMessages fs)).
    destruct (bounds_kept st f) as [Hs He].
    destruct (not_retained_cases V f (mc st) (start st) (stop st))
      as [Hn | [[Hin Hb] | [(Hin & Ha & Hb) | [Hin Hw]]]].
    + destruct (unrecognised st f Hn) as [Hm Ho].
      rewrite (recognised_out V f fs Hn) in *.
      destruct (IH (next st f)) as (IH1 & IH2 & IH3 & IH4);
        [lia | lia | lia|].
      rewrite IH1, IH2, IH3, IH4, Hs, He, Hm, Ho. repeat split.
    + destruct (before st f Hin Hb) as [Hm Ho].
      rewrite (recognised_in V f fs Hin) in *. cbn [List.length] in Hno.
      assert (Hi : incr64 (mc st) = mc st + 1)
        by (unfold incr64, wrap64; apply Z.mod_small; lia).
      rewrite Hi in Hm.
      destruct (IH (next st f)) as (IH1 & IH2 & IH3 & IH4);
        [lia | lia | lia|].
      rewrite IH1, IH2, IH3, IH4, Hs, He, Hm, Ho. cbn [windowRows List.length].
      replace (start st <=? mc st) with false by (symmetry; apply Z.leb_gt; lia).
      cbn [andb]. repeat split.
      destruct (Z.leb_spec (mc st + 1) (stop st));
        destruct (Z.leb_spec (mc st) (stop st)); lia.
    + destruct (after st f Hin Ha Hb) as [Hm Ho].
      rewrite (recognised_in V f fs Hin) in *. cbn [List.length] in Hno.
      destruct (IH (next st f)) as (IH1 & IH2 & IH3 & IH4);
        [lia | lia | lia|].
      rewrite IH1, IH2, IH3, IH4, Hs, He, Hm, Ho.
      rewrite !windowRows_past by lia. repeat split.
      destruct (Z.leb_spec (mc st) (stop st)); [lia | reflexivity].
    + destruct (retained st f Hin Hw) as [Hm Ho]. unfold inWindow in Hw.
      rewrite (recognised_in V f fs Hin) in *. cbn [List.length] in Hno.
      assert (Hi : incr64 (mc st) = mc st + 1)
        by (unfold incr64, wrap64; apply Z.mod_small; lia).
      rewrite Hi in Hm.
      destruct (IH (next st f)) as (IH1 & IH2 & IH3 & IH4);
        [lia | lia | lia|].
      rewrite IH1, IH2, IH3, IH4, Hs, He, Hm, Ho. cbn [windowRows List.length].
      replace (start st <=? mc st) with true by (symmetry; apply Z.leb_le; lia).
      replace (mc st <=? stop st) with true by (symmetry; apply Z.leb_le; lia).
      cbn [andb map]. rewrite <- app_assoc. repeat split.
      destruct (Z.leb_spec (mc st + 1) (stop st)); lia.
Qed.

End WindowRun.

Section OrdersWindow.

(** One column of Orders, seen as the list of what each retained frame
    contributes. *)
Variable R : Type.
Variable obs : Orders.state -> list R.
Variable row : buffer -> R.

Hypothesis obs_init : obs Orders.init = [].
Hypothesis obs_setBoundaries : forall st s e,
  obs (Orders.setBoundaries st s e) = obs st.
Hypothesis obs_setMessageCount : forall st n,
  obs (Orders.setMessageCount st n) = obs st.
Hypothesis obs_retained : forall st buf,
  In (buf 0%nat) Orders.validTypes ->
  inWindow (Orders.messageCount st) (Orders.startMsgCount st)
           (Orders.endMsgCount st) ->
  obs (snd (Orders.loadMessages st buf)) = obs st ++ [row buf].

Lemma orders_window_run (frames : list buffer) (st : Orders.state) :
  Orders.startMsgCount st <= Orders.endMsgCount st ->
  0 <= Orders.messageCount st ->
  Orders.messageCount st
  + Z.of_nat (List.length (recognised Orders.validTypes frames)) < 2 ^ 64 ->
  let st' := run OrdersType st (map LoadMessages frames) in
  Orders.startMsgCount st' = Orders.startMsgCount st
  /\ Orders.endMsgCount st' = Orders.endMsgCount st
  /\ obs st'
     = obs st
       ++ map row (windowRows (Orders.messageCount st)
                     (Orders.startMsgCount st) (Orders.endMsgCount st)
                     (recognised Orders.validTypes frames))
  /\ Orders.messageCount st'
     = (if Orders.messageCount st <=? Orders.endMsgCount st
        then Z.min (Orders.messageCount st
                    + Z.of_nat (List.length
                                  (recognised Orders.validTypes frames)))
                   (Orders.endMsgCount st + 1)
        else Orders.messageCount st).
Proof.
  apply (window_run OrdersType Orders.validTypes Orders.messageCount
           Orders.startMsgCount Orders.endMsgCount obs row).
  - intros s b. apply orders_bounds_kept.
  - intros s b H. cbn. now rewrite orders_unrecognised.
  - intros s b H1 H2. cbn. rewrite orders_before_window by assumption.
    cbn [snd]. now rewrite obs_setMessageCount.
  - intros s b H1 H2 H3. cbn. now rewrite orders_after_window.
  - intros s b H1 H2. cbn. split; [|now apply obs_retained].
    now rewrite orders_retained.
Qed.

(** The column under the window [s .. e] is the slice [s .. e] of the
    column under the default window. *)
Lemma orders_column_slice (frames : list buffer) (s e : Z) :
  0 <= s -> s <= e ->
  Z.of_nat (List.length (recognised Orders.validTypes frames)) < 2 ^ 64 ->
  obs (run OrdersType Orders.init (SetBoundaries s e :: map LoadMessages frames))
  = slice s e (obs (run OrdersType Orders.init (map LoadMessages frames))).
Proof.
  intros Hs He Hk.
  change (run OrdersType Orders.init
            (SetBoundaries s e :: map LoadMessages frames))
    with (run OrdersType (Orders.setBoundaries Orders.init s e)
              (map LoadMessages frames)).
  destruct (orders_window_run frames (Orders.setBoundaries Orders.init s e))
    as (_ & _ & Hw & _); [cbn; lia | cbn; lia | cbn; lia|].
  destruct (orders_window_run frames Orders.init)
    as (_ & _ & Hf & _);
    [vm_compute; discriminate | cbn; lia | cbn; lia|].
  rewrite Hw, Hf, obs_setBoundaries, obs_init. cbn [app].
  cbn [Orders.messageCount Orders.startMsgCount Orders.endMsgCount
       Orders.setBoundaries Orders.init].
  rewrite !windowRows_from_zero, slice_map. f_equal. f_equal.
  symmetry. apply slice_all. unfold defaultEndMsgCount. lia.
Qed.

End OrdersWindow.

(** Discharges the four facts [orders_column_slice] needs of a column. *)
Ltac orders_column :=
  match goal with
  | |- _ = [] => reflexivity
  | |- forall st s e, _ = _ => reflexivity
  | |- forall st n, _ = _ => reflexivity
  | |- forall st buf, _ -> _ -> _ =>
      let st := fresh "st" in let buf := fresh "buf" in
      let H1 := fresh in let H2 := fresh in
      intros st buf H1 H2; rewrite (orders_retained st buf H1 H2);
      reflexivity
  end.

(** X8.  The window of Orders selects rows and does nothing else: for any
    file, decoding with the window [s .. e] gives, in every column, the
    elements at positions [s .. e] of the column that the default window
    (everything) gives.  The file may hold frames of any type, and fewer
    than [2^64] add orders. *)
Theorem orders_window_is_slice (frames : list buffer) (s e : Z) :
  0 <= s -> s <= e -> e < 2 ^ 64 ->
  Z.of_nat (List.length (recognised Orders.validTypes frames)) < 2 ^ 64 ->
  let full := run OrdersType Orders.init (map LoadMessages frames) in
  let win := run OrdersType Orders.init
                 (SetBoundaries s e :: map LoadMessages frames) in
  Orders.columns win
  = (slice s e (Orders.type full), slice s e (Orders.locateCode full),
     slice s e (Orders.trackingNumber full),
     slice s e (Orders.timestamp full), slice s e (Orders.orderRef full),
     slice s e (Orders.buy full), slice s e (Orders.shares full),
     slice s e (Orders.stock full), slice s e (Orders.price full),
     slice s e (Orders.mpid full)).
Proof.
  intros Hs He _ Hk full win. subst full win. unfold Orders.columns.
  rewrite <- (orders_column_slice _ Orders.type (fun b => b 0%nat))
    by first [orders_column | assumption].
  rewrite <- (orders_column_slice _ Orders.locateCode
                (fun b => get2bytes (offset b 1)))
    by first [orders_column | assumption].
  rewrite <- (orders_column_slice _ Orders.trackingNumber
                (fun b => get2bytes (offset b 3)))
    by first [orders_column | assumption].
  rewrite <- (orders_column_slice _ Orders.timestamp
                (fun b => get6bytes (offset b 5)))
    by first [orders_column | assumption].
  rewrite <- (orders_column_slice _ Orders.orderRef
                (fun b => get8bytes (offset b 11)))
    by first [orders_column | assumption].
  rewrite <- (orders_column_slice _ Orders.buy
                (fun b => Byte.eqb (b 19%nat) "B"%byte))
    by first [orders_column | assumption].
  rewrite <- (orders_column_slice _ Orders.shares
                (fun b => get4bytes (offset b 20)))
    by first [orders_column | assumption].
  rewrite <- (orders_column_slice _ Orders.stock
                (fun b => copyNonWhite b 24 8 EmptyString))
    by first [orders_column | assumption].
  rewrite <- (orders_column_slice _ Orders.price
                (fun b => priceOfRaw (get4bytes (offset b 32))))
    by first [orders_column | assumption].
  rewrite <- (orders_column_slice _ Orders.mpid
                (fun b => if Byte.eqb (b 0%nat) "F"%byte
                          then copyNonWhite b 36 4 EmptyString
                          else EmptyString))
    by first [orders_column | assumption].
  reflexivity.
Qed.

Lemma orders_window_is_slice_witness :
  Orders.columns
    (run OrdersType Orders.init
         (SetBoundaries 1 2 :: map LoadMessages mixedFile))
  = (["A"; "F"]%byte, [1; 7], [0; 0], [0; 34200000000000], [101; 102],
     [false; true], [20; 300], ["BRKA"; "MSFT"]%string,
     [1234.0; 0.025]%float, [""; "GSCO"]%string).
Proof.
  rewrite (orders_window_is_slice mixedFile 1 2
             ltac:(lia) ltac:(lia) ltac:(lia)
             ltac:(vm_compute; reflexivity)).
  vm_compute. reflexivity.
Defined.

Section RowCount.

Lemma orders_run_aligned (calls : list call) :
  aligned (Orders.columnLengths (run OrdersType Orders.init calls)).
Proof.
  apply (run_aligned OrdersType).
  - reflexivity.
  - intros a st n st' H. now rewrite (orders_reserve_same _ _ _ _ H).
  - intros st buf. apply (if_either _ _ _ _ (orders_lengths st buf)).
  - apply (aligned_repeat 0 10).
Qed.

Lemma trades_run_aligned (calls : list call) :
  aligned (Trades.columnLengths (run TradesType Trades.init calls)).
Proof.
  apply (run_aligned TradesType).
  - reflexivity.
  - intros a st n st' H. now rewrite (trades_reserve_same _ _ _ _ H).
  - intros st buf. apply (if_either _ _ _ _ (trades_lengths st buf)).
  - apply (aligned_repeat 0 11).
Qed.

Lemma mods_run_aligned {flag : Type} (fc : byte -> flag) (fb : bool -> flag)
    (calls : list call) :
  aligned (Modifications.columnLengths
             (run (ModificationsType fc fb) Modifications.init calls)).
Proof.
  apply (run_aligned (ModificationsType fc fb)).
  - reflexivity.
  - intros a st n st' H. now rewrite (mods_reserve_same _ _ _ _ H).
  - intros st buf. apply (if_either _ _ _ _ (mods_lengths fc fb st buf)).
  - apply (aligned_repeat 0 10).
Qed.

Lemma aligned_all (x : nat) (l : list nat) (P : nat -> Prop) :
  aligned l -> In x l -> P x -> Forall P l.
Proof.
  intros Ha Hx HP. apply Forall_forall. intros y Hy.
  now rewrite (Ha y x Hy Hx).
Qed.

Lemma trades_window_run (frames : list buffer) (s e : Z) :
  0 <= s -> s <= e ->
  Z.of_nat (List.length (recognised Trades.validTypes frames)) < 2 ^ 64 ->
  let win := run TradesType Trades.init
                 (SetBoundaries s e :: map LoadMessages frames) in
  Trades.type win
  = map (fun b => b 0%nat) (slice s e (recognised Trades.validTypes frames))
  /\ Trades.messageCount win
     = Z.min (Z.of_nat (List.length (recognised Trades.validTypes frames)))
             (e + 1).
Proof.
  intros Hs He Hk win. subst win.
  change (run TradesType Trades.init
            (SetBoundaries s e :: map LoadMessages frames))
    with (run TradesType (Trades.setBoundaries Trades.init s e)
              (map LoadMessages frames)).
  destruct (window_run TradesType Trades.validTypes Trades.messageCount
              Trades.startMsgCount Trades.endMsgCount Trades.type
              (fun b => b 0%nat)) with (frames := frames)
              (st := Trades.setBoundaries Trades.init s e)
    as (_ & _ & Ho & Hm).
  - intros st b. apply trades_bounds_kept.
  - intros st b H. cbn. now rewrite trades_unrecognised.
  - intros st b H1 H2. cbn. now rewrite trades_before_window.
  - intros st b H1 H2 H3. cbn. now rewrite trades_after_window.
  - intros st b H1 H2. cbn.
    destruct (trades_retained st b H1 H2)
      as (o & bb & sh & k & p & m & c & ->).
    split; reflexivity.
  - cbn. lia.
  - cbn. lia.
  - cbn. lia.
  - rewrite Ho, Hm. cbn [Trades.messageCount Trades.startMsgCount
      Trades.endMsgCount Trades.type Trades.setBoundaries Trades.init app].
    rewrite windowRows_from_zero. split; [reflexivity|].
    destruct (Z.leb_spec 0 e); lia.
Qed.

Lemma mods_window_run {flag : Type} (fc : byte -> flag) (fb : bool -> flag)
    (frames : list buffer) (s e : Z) :
  0 <= s -> s <= e ->
  Z.of_nat (List.length (recognised Modifications.validTypes frames)) < 2 ^ 64 ->
  let win := run (ModificationsType fc fb) Modifications.init
                 (SetBoundaries s e :: map LoadMessages frames) in
  Modifications.type win
  = map (fun b => b 0%nat)
        (slice s e (recognised Modifications.validTypes frames))
  /\ Modifications.messageCount win
     = Z.min (Z.of_nat (List.length
                          (recognised Modifications.validTypes frames)))
             (e + 1).
Proof.
  intros Hs He Hk win. subst win.
  change (run (ModificationsType fc fb) Modifications.init
            (SetBoundaries s e :: map LoadMessages frames))
    with (run (ModificationsType fc fb)
              (Modifications.setBoundaries Modifications.init s e)
              (map LoadMessages frames)).
  destruct (window_run (ModificationsType fc fb) Modifications.validTypes
              Modifications.messageCount Modifications.startMsgCount
              Modifications.endMsgCount Modifications.type
              (fun b => b 0%nat)) with (frames := frames)
              (st := @Modifications.setBoundaries flag Modifications.init s e)
    as (_ & _ & Ho & Hm).
  - intros st b. apply mods_bounds_kept.
  - intros st b H. cbn. now rewrite mods_unrecognised.
  - intros st b H1 H2. cbn. now rewrite mods_before_window.
  - intros st b H1 H2 H3. cbn. now rewrite mods_after_window.
  - intros st b H1 H2. cbn.
    destruct (mods_retained fc fb st b H1 H2) as (sh & m & pr & p & n & ->).
    split; reflexivity.
  - cbn. lia.
  - cbn. lia.
  - cbn. lia.
  - rewrite Ho, Hm. cbn [Modifications.messageCount
      Modifications.startMsgCount Modifications.endMsgCount
      Modifications.type Modifications.setBoundaries Modifications.init app].
    rewrite windowRows_from_zero. split; [reflexivity|].
    destruct (Z.leb_spec 0 e); lia.
Qed.

Lemma orders_type_window_run (frames : list buffer) (s e : Z) :
  0 <= s -> s <= e ->
  Z.of_nat (List.length (recognised Orders.validTypes frames)) < 2 ^ 64 ->
  let win := run OrdersType Orders.init
                 (SetBoundaries s e :: map LoadMessages frames) in
  Orders.type win
  = map (fun b => b 0%nat) (slice s e (recognised Orders.validTypes frames))
  /\ Orders.messageCount win
     = Z.min (Z.of_nat (List.length (recognised Orders.validTypes frames)))
             (e + 1).
Proof.
  intros Hs He Hk win. subst win.
  change (run OrdersType Orders.init
            (SetBoundaries s e :: map LoadMessages frames))
    with (run OrdersType (Orders.setBoundaries Orders.init s e)
              (map LoadMessages frames)).
  destruct (orders_window_run _ Orders.type (fun b => b 0%nat))
    with (frames := frames) (st := Orders.setBoundaries Orders.init s e)
    as (_ & _ & Ho & Hm); try orders_column; try (cbn; lia).
  rewrite Ho, Hm. cbn [Orders.messageCount Orders.startMsgCount
    Orders.endMsgCount Orders.type Orders.setBoundaries Orders.init app].
  rewrite windowRows_from_zero. split; [reflexivity|].
  destruct (Z.leb_spec 0 e); lia.
Qed.

End RowCount.

Lemma rows_from_type (x : nat) (l : list nat) (v : Z) :
  aligned l -> In x l -> Z.of_nat x = v ->
  Forall (fun n => Z.of_nat n = v) l.
Proof. intros Ha Hx Hv. now apply (aligned_all x l _ Ha Hx). Qed.

(** X9.  How many rows a window gives.  If a file holds [k] frames of the
    decoder's types ([k < 2^64]) and is decoded with the window [s .. e],
    [0 <= s <= e], then the decoder ends with
    [messageCount = min k (e + 1)], its type column lists the type bytes of
    the recognised frames number [s] to [e], and every column holds
    [max 0 (min k (e + 1) - s)] rows, never more than [e - s + 1]. *)
Theorem window_row_count :
  (forall frames s e,
     0 <= s -> s <= e -> e < 2 ^ 64 ->
     let frs := recognised Orders.validTypes frames in
     let k := Z.of_nat (List.length frs) in
     k < 2 ^ 64 ->
     let win := run OrdersType Orders.init
                    (SetBoundaries s e :: map LoadMessages frames) in
     Orders.messageCount win = Z.min k (e + 1)
     /\ Orders.type win = map (fun b => b 0%nat) (slice s e frs)
     /\ Forall (fun n => Z.of_nat n = Z.max 0 (Z.min k (e + 1) - s)
                         /\ Z.of_nat n <= e - s + 1)
               (Orders.columnLengths win)) /\
  (forall frames s e,
     0 <= s -> s <= e -> e < 2 ^ 64 ->
     let frs := recognised Trades.validTypes frames in
     let k := Z.of_nat (List.length frs) in
     k < 2 ^ 64 ->
     let win := run TradesType Trades.init
                    (SetBoundaries s e :: map LoadMessages frames) in
     Trades.messageCount win = Z.min k (e + 1)
     /\ Trades.type win = map (fun b => b 0%nat) (slice s e frs)
     /\ Forall (fun n => Z.of_nat n = Z.max 0 (Z.min k (e + 1) - s)
                         /\ Z.of_nat n <= e - s + 1)
               (Trades.columnLengths win)) /\
  (forall (flag : Type) (flagOfChar : byte -> flag) (flagOfBool : bool -> flag)
          frames s e,
     0 <= s -> s <= e -> e < 2 ^ 64 ->
     let frs := recognised Modifications.validTypes frames in
     let k := Z.of_nat (List.length frs) in
     k < 2 ^ 64 ->
     let win := run (ModificationsType flagOfChar flagOfBool)
                    Modifications.init
                    (SetBoundaries s e :: map LoadMessages frames) in
     Modifications.messageCount win = Z.min k (e + 1)
     /\ Modifications.type win = map (fun b => b 0%nat) (slice s e frs)
     /\ Forall (fun n => Z.of_nat n = Z.max 0 (Z.min k (e + 1) - s)
                         /\ Z.of_nat n <= e - s + 1)
               (Modifications.columnLengths win)).
Proof.
  split; [|split].
  - intros frames s e Hs He _ frs k Hk win. subst frs k win.
    destruct (orders_type_window_run frames s e Hs He Hk) as [Ht Hm].
    split; [exact Hm|]. split; [exact Ht|].
    apply (aligned_all (List.length (Orders.type
             (run OrdersType Orders.init
                  (SetBoundaries s e :: map LoadMessages frames))))).
    + apply orders_run_aligned.
    + left. reflexivity.
    + cbv beta. rewrite Ht, length_map, slice_length by assumption.
      clear - Hs He. split; [reflexivity|].
      match goal with
      | |- context [Z.of_nat ?n] => generalize (Z.of_nat n)
      end.
      intros k. lia.
  - intros frames s e Hs He _ frs k Hk win. subst frs k win.
    destruct (trades_window_run frames s e Hs He Hk) as [Ht Hm].
    split; [exact Hm|]. split; [exact Ht|].
    apply (aligned_all (List.length (Trades.type
             (run TradesType Trades.init
                  (SetBoundaries s e :: map LoadMessages frames))))).
    + apply trades_run_aligned.
    + left. reflexivity.
    + cbv beta. rewrite Ht, length_map, slice_length by assumption.
      clear - Hs He. split; [reflexivity|].
      match goal with
      | |- context [Z.of_nat ?n] => generalize (Z.of_nat n)
      end.
      intros k. lia.
  - intros flag fc fb frames s e Hs He _ frs k Hk win. subst frs k win.
    destruct (mods_window_run fc fb frames s e Hs He Hk) as [Ht Hm].
    split; [exact Hm|]. split; [exact Ht|].
    apply (aligned_all (List.length (Modifications.type
             (run (ModificationsType fc fb) Modifications.init
                  (SetBoundaries s e :: map LoadMessages frames))))).
    + apply mods_run_aligned.
    + left. reflexivity.
    + cbv beta. rewrite Ht, length_map, slice_length by assumption.
      clear - Hs He. split; [reflexivity|].
      match goal with
      | |- context [Z.of_nat ?n] => generalize (Z.of_nat n)
      end.
      intros k. lia.
Qed.

Lemma window_row_count_witness :
  Trades.messageCount
    (run TradesType Trades.init
         (SetBoundaries 0 5 :: map LoadMessages
            [frameTrade; frameAAPL; frameCross; frameBroken]))
  = Z.min 3 (5 + 1)
  /\ Orders.messageCount
       (run OrdersType Orders.init
            (SetBoundaries 1 1 :: map LoadMessages mixedFile))
     = Z.min 3 (1 + 1).
Proof.
  split.
  - apply (proj1 (proj1 (proj2 window_row_count)
             [frameTrade; frameAAPL; frameCross; frameBroken] 0 5
             ltac:(lia) ltac:(lia) ltac:(lia)
             ltac:(vm_compute; reflexivity))).
  - apply (proj1 (proj1 window_row_count mixedFile 1 1
             ltac:(lia) ltac:(lia) ltac:(lia)
             ltac:(vm_compute; reflexivity))).
Defined.

(** ** Data frames *)

Section DataFrames.

Lemma orders_df (calls : list call) :
  let df := getDF_Orders (run OrdersType Orders.init calls) in
  List.length df = 10%nat /\ NoDup (dfNames df) /\ aligned (dfLengths df).
Proof.
  cbv zeta. split; [reflexivity|]. split.
  - cbn. repeat constructor; cbn; intuition discriminate.
  - apply (orders_run_aligned calls).
Qed.

Lemma trades_df (calls : list call) :
  let df := getDF_Trades (run TradesType Trades.init calls) in
  List.length df = 11%nat /\ NoDup (dfNames df) /\ aligned (dfLengths df).
Proof.
  cbv zeta. split; [reflexivity|]. split.
  - cbn. repeat constructor; cbn; intuition discriminate.
  - apply (trades_run_aligned calls).
Qed.

Lemma mods_df {flag : Type} (fc : byte -> flag) (fb : bool -> flag)
    (calls : list call) :
  let df := getDF_Modifications
              (run (ModificationsType fc fb) Modifications.init calls) in
  List.length df = 10%nat /\ NoDup (dfNames df) /\ aligned (dfLengths df).
Proof.
  cbv zeta. split; [reflexivity|]. split.
  - cbn. repeat constructor; cbn; intuition discriminate.
  - apply (mods_run_aligned fc fb calls).
Qed.

End DataFrames.

(** X10.  Whatever calls were made on a fresh decoder, [getDF] builds a
    well-formed data frame from it: 10 columns for Orders and
    Modifications and 11 for Trades, with pairwise different names and all
    of the same length. *)
Theorem getDF_well_formed :
  (forall calls,
     let df := getDF_Orders (run OrdersType Orders.init calls) in
     List.length df = 10%nat /\ NoDup (dfNames df) /\ aligned (dfLengths df)) /\
  (forall calls,
     let df := getDF_Trades (run TradesType Trades.init calls) in
     List.length df = 11%nat /\ NoDup (dfNames df) /\ aligned (dfLengths df)) /\
  (forall (flag : Type) (flagOfChar : byte -> flag) (flagOfBool : bool -> flag)
          calls,
     let df := getDF_Modifications
                 (run (ModificationsType flagOfChar flagOfBool)
                      Modifications.init calls) in
     List.length df = 10%nat /\ NoDup (dfNames df) /\ aligned (dfLengths df)).
Proof.
  split; [exact orders_df|]. split; [exact trades_df|].
  intros flag fc fb. exact (mods_df fc fb).
Qed.

(** ** The front ends *)

Section SessionResult.

Import Orchestrator.

Variable MT : Type.
Variable DF : Type.
Variable msgCountValidMessages : MT -> list Z -> Z.
Variable msgReserve : MT -> Z -> option MT.
Variable msgGetDF : MT -> DF.
Variable countMessages : string -> Z -> list Z.
Variable loadToMessages : string -> MT -> Z -> Z -> Z -> bool -> MT.


(** With [quiet] set, a session writes nothing to the console. *)
Lemma session_quiet (msg : MT) (filename : string)
    (startMsgCount endMsgCount bufferSize : Z) :
  existsb isRcout
    (snd (getMessagesTemplate msgCountValidMessages msgReserve msgGetDF
            countMessages loadToMessages msg filename
            startMsgCount endMsgCount bufferSize true))
  = false.
Proof.
  unfold getMessagesTemplate.
  destruct (endMsgCount <? startMsgCount).
  - destruct (startMsgCount =? 0); destruct (msgReserve msg _); reflexivity.
  - destruct (endMsgCount =? 0); destruct (msgReserve msg _); reflexivity.
Qed.

End SessionResult.





(** The front end of Orders on the example machine: a window of three rows
    is decoded, a window of [2^62 + 1] rows is refused by the allocator. *)
Example front_end_example :
  option_map dfLengths
    (fst (getOrders_impl exampleAllocates exampleTypePositions
            exampleCountMessages exampleLoader "itch.bin" 2 0 100 true))
  = Some (repeat 3%nat 10)
  /\ getOrders_impl exampleAllocates exampleTypePositions
       exampleCountMessages exampleLoader "itch.bin" 0 (2 ^ 62) 100 true
     = (None, [Orchestrator.CallReserve (2 ^ 62 + 1)]).
Proof. vm_compute. split; reflexivity. Qed.

(** ** The message counter *)

Section Counter.

Lemma incr64_step (n : Z) :
  (0 <= n < 2 ^ 64 - 1 -> incr64 n = n + 1)
  /\ (n = 2 ^ 64 - 1 -> incr64 n = 0).
Proof.
  unfold incr64, wrap64. split.
  - intros H. apply Z.mod_small. lia.
  - intros ->. reflexivity.
Qed.

(** The four outcomes, seen from the counter. *)
Lemma counter_cases (mc mc' s e : Z) (valid : Prop) :
  (~ valid /\ mc' = mc)
  \/ (valid /\ mc < s /\ mc' = incr64 mc)
  \/ (valid /\ s <= mc /\ e < mc /\ mc' = mc)
  \/ (valid /\ inWindow mc s e /\ mc' = incr64 mc) ->
  (0 <= mc < 2 ^ 64 - 1 -> mc <= mc' <= mc + 1)
  /\ (mc' <> mc -> valid /\ (mc < s \/ mc <= e))
  /\ (valid -> mc = 2 ^ 64 - 1 -> mc < s \/ mc <= e -> mc' = 0).
Proof.
  unfold inWindow. destruct (incr64_step mc) as [Hi Hw].
  intros [[Hn ->] | [(Hv & Hb & ->) | [(Hv & Ha & Hb & ->) | (Hv & Hin & ->)]]];
    repeat split; intros;
    try (rewrite Hi by lia); try (rewrite Hw by lia);
    try lia; try contradiction; auto.
Qed.

End Counter.

(** X12.  [loadMessages] never changes the window bounds, and it moves
    [messageCount] only for a frame of a recognised type that lies before
    or inside the window, and then by exactly one: below [2^64 - 1] the
    counter never decreases and grows by at most one per call; at
    [2^64 - 1] a counted frame wraps it round to 0. *)
Theorem counter_step :
  (forall st buf,
     let st' := snd (Orders.loadMessages st buf) in
     let mc := Orders.messageCount st in
     (Orders.startMsgCount st' = Orders.startMsgCount st
      /\ Orders.endMsgCount st' = Orders.endMsgCount st)
     /\ (0 <= mc < 2 ^ 64 - 1 -> mc <= Orders.messageCount st' <= mc + 1)
     /\ (Orders.messageCount st' <> mc ->
         In (buf 0%nat) Orders.validTypes
         /\ (mc < Orders.startMsgCount st \/ mc <= Orders.endMsgCount st))
     /\ (In (buf 0%nat) Orders.validTypes -> mc = 2 ^ 64 - 1 ->
         mc < Orders.startMsgCount st \/ mc <= Orders.endMsgCount st ->
         Orders.messageCount st' = 0)) /\
  (forall st buf,
     let st' := snd (Trades.loadMessages st buf) in
     let mc := Trades.messageCount st in
     (Trades.startMsgCount st' = Trades.startMsgCount st
      /\ Trades.endMsgCount st' = Trades.endMsgCount st)
     /\ (0 <= mc < 2 ^ 64 - 1 -> mc <= Trades.messageCount st' <= mc + 1)
     /\ (Trades.messageCount st' <> mc ->
         In (buf 0%nat) Trades.validTypes
         /\ (mc < Trades.startMsgCount st \/ mc <= Trades.endMsgCount st))
     /\ (In (buf 0%nat) Trades.validTypes -> mc = 2 ^ 64 - 1 ->
         mc < Trades.startMsgCount st \/ mc <= Trades.endMsgCount st ->
         Trades.messageCount st' = 0)) /\
  (forall (flag : Type) (flagOfChar : byte -> flag) (flagOfBool : bool -> flag)
          st buf,
     let st' := snd (Modifications.loadMessages flagOfChar flagOfBool st buf) in
     let mc := Modifications.messageCount st in
     (Modifications.startMsgCount st' = Modifications.startMsgCount st
      /\ Modifications.endMsgCount st' = Modifications.endMsgCount st)
     /\ (0 <= mc < 2 ^ 64 - 1 ->
         mc <= Modifications.messageCount st' <= mc + 1)
     /\ (Modifications.messageCount st' <> mc ->
         In (buf 0%nat) Modifications.validTypes
         /\ (mc < Modifications.startMsgCount st
             \/ mc <= Modifications.endMsgCount st))
     /\ (In (buf 0%nat) Modifications.validTypes -> mc = 2 ^ 64 - 1 ->
         mc < Modifications.startMsgCount st
         \/ mc <= Modifications.endMsgCount st ->
         Modifications.messageCount st' = 0)).
Proof.
  split; [|split].
  - intros st buf st' mc. subst st' mc.
    split; [apply orders_bounds_kept|]. apply counter_cases.
    destruct (not_retained_cases Orders.validTypes buf
                (Orders.messageCount st) (Orders.startMsgCount st)
                (Orders.endMsgCount st))
      as [Hn | [[Hin Hb] | [(Hin & Ha & Hb) | [Hin Hw]]]].
    + left. now rewrite orders_unrecognised.
    + right; left. now rewrite orders_before_window.
    + right; right; left. now rewrite orders_after_window.
    + right; right; right. now rewrite orders_retained.
  - intros st buf st' mc. subst st' mc.
    split; [apply trades_bounds_kept|]. apply counter_cases.
    destruct (not_retained_cases Trades.validTypes buf
                (Trades.messageCount st) (Trades.startMsgCount st)
                (Trades.endMsgCount st))
      as [Hn | [[Hin Hb] | [(Hin & Ha & Hb) | [Hin Hw]]]].
    + left. now rewrite trades_unrecognised.
    + right; left. now rewrite trades_before_window.
    + right; right; left. now rewrite trades_after_window.
    + right; right; right.
      destruct (trades_retained st buf Hin Hw)
        as (o & b & s & k & p & m & c & ->).
      split; [exact Hin|split; [exact Hw|reflexivity]].
  - intros flag fc fb st buf st' mc. subst st' mc.
    split; [apply mods_bounds_kept|]. apply counter_cases.
    destruct (not_retained_cases Modifications.validTypes buf
                (Modifications.messageCount st)
                (Modifications.startMsgCount st)
                (Modifications.endMsgCount st))
      as [Hn | [[Hin Hb] | [(Hin & Ha & Hb) | [Hin Hw]]]].
    + left. now rewrite mods_unrecognised.
    + right; left. now rewrite mods_before_window.
    + right; right; left. now rewrite mods_after_window.
    + right; right; right.
      destruct (mods_retained fc fb st buf Hin Hw)
        as (s & m & pr & p & n & ->).
      split; [exact Hin|split; [exact Hw|reflexivity]].
Qed.

Lemma counter_step_witness :
  Orders.messageCount
    (snd (Orders.loadMessages
            (Orders.setMessageCount Orders.init (2 ^ 64 - 1)) frameAAPL))
  = 0.
Proof.
  apply (proj2 (proj2 (proj2 (proj1 counter_step
           (Orders.setMessageCount Orders.init (2 ^ 64 - 1)) frameAAPL)))).
  - vm_compute. auto.
  - reflexivity.
  - right. vm_compute. discriminate.
Defined.

(** ** Sessions of the example decoder *)

Lemma countValidMessages_nonneg (typePositions : list nat) (count : list Z) :
  0 <= countValidMessages typePositions count.
Proof.
  unfold countValidMessages. rewrite countValidMessages_fold by lia.
  apply Z.mod_pos_bound. lia.
Qed.

Lemma loader_window_ordered_witness :
  Forall Orchestrator.windowOrdered (snd (getOrders "itch.bin" 2 0 100 true)).
Proof.
  apply (loader_window_ordered Orders.state _
           (fun _ => countValidMessages exampleTypePositions)
           (Orders.reserve exampleAllocates) Orders.columns
           exampleCountMessages exampleLoadToMessages
           Orders.init "itch.bin" 2 0 100 true).
  - intros m c. apply countValidMessages_nonneg.
  - lia.
  - lia.
Defined.

(** The default session over the example file counts first, and is silent
    when asked to be. *)
Example counting_session_example :
  snd (getOrders "itch.bin" 0 0 100 false)
  = [Orchestrator.Rcout "[Counting]   ";
     Orchestrator.CallCountMessages "itch.bin" 100;
     Orchestrator.RcoutNumber 3; Orchestrator.Rcout " messages found";
     Orchestrator.CallReserve 3; Orchestrator.Rcout "[Loading]    ";
     Orchestrator.CallLoadToMessages "itch.bin" 0 3 100 false;
     Orchestrator.Rcout "[Converting] to data.table";
     Orchestrator.CallGetDF]
  /\ existsb isRcout (snd (getOrders "itch.bin" 0 0 100 true)) = false.
Proof. vm_compute. split; reflexivity. Qed.
